(** * The alert-response pattern of the self-healing workshop

    A shallow embedding of [examples/python/lightspeed_client.py] and
    [examples/python/pattern_alert_response.py]: the HTTP client wrapper
    [LightspeedClient.query], the normaliser [extract_insights] and the
    confidence-gated routing of [handle_prometheus_alert].

    Python values are dynamically typed, so the embedding works over a
    small universe of JSON-shaped values and an exception monad: every
    subscript, [.get], [in] and comparison of the source is written out
    with the exception it raises on an operand of the wrong type. *)

From Stdlib Require Import Floats ZArith.
From stdpp Require Import gmap strings list fin_maps pretty.

Set Warnings "-inexact-float,-register-all".

Local Open Scope Z_scope.

(** ** A fragment of the Python runtime *)

Module Py.

(** What [json.loads] can produce, which is also everything the two
    modules build themselves: [None], [bool], [int], [float] (IEEE
    binary64, as Rocq's primitive floats), [str], [list] and [dict]
    with string keys. *)
Inductive value : Type :=
| VNone
| VBool (b : bool)
| VInt (z : Z)
| VFloat (f : float)
| VStr (s : string)
| VList (l : list value)
| VDict (d : gmap string value).

(** Exception classes.  The first four are built-in subclasses of
    [Exception]; the next four stand for [requests.exceptions]
    ([RequestException] and its subclasses); [KeyboardInterrupt]
    derives from [BaseException] only. *)
Inductive exc_class : Type :=
| KeyError
| TypeError
| AttributeError
| ValueError
| ConnectionError
| Timeout
| JSONDecodeError
| RequestException
| KeyboardInterrupt.

(** A raised exception: its class and the text of [str(e)]. *)
Record exc : Type := Exc { exc_type : exc_class; exc_str : string }.

(** [isinstance(e, requests.exceptions.RequestException)] *)
Definition is_RequestException (c : exc_class) : bool :=
  match c with
  | ConnectionError | Timeout | JSONDecodeError | RequestException => true
  | _ => false
  end.

(** [isinstance(e, Exception)] *)
Definition is_Exception (c : exc_class) : bool :=
  match c with
  | KeyboardInterrupt => false
  | _ => true
  end.

(** A computation either raises or returns. *)
Definition result (A : Type) : Type := exc + A.

Definition raise {A : Type} (c : exc_class) (msg : string) : result A :=
  inl (Exc c msg).

#[global] Instance result_ret : MRet result := fun A x => inr x.
#[global] Instance result_bind : MBind result := fun A B f m =>
  match m with
  | inl e => inl e
  | inr x => f x
  end.

(** [type(v).__name__] *)
Definition type_name (v : value) : string :=
  match v with
  | VNone => "NoneType"
  | VBool _ => "bool"
  | VInt _ => "int"
  | VFloat _ => "float"
  | VStr _ => "str"
  | VList _ => "list"
  | VDict _ => "dict"
  end.

(** [o[k]] for a string key [k]: only a [dict] answers, with
    [KeyError] on a missing key; every other operand is a
    [TypeError]. *)
Definition getitem (o : value) (k : string) : result value :=
  match o with
  | VDict d =>
      match d !! k with
      | Some v => mret v
      | None => raise KeyError ("'" +:+ k +:+ "'")
      end
  | VStr _ => raise TypeError "string indices must be integers, not 'str'"
  | VList _ => raise TypeError "list indices must be integers or slices, not str"
  | _ => raise TypeError ("'" +:+ type_name o +:+ "' object is not subscriptable")
  end.

(** [o.get(k, default)]: only [dict] has the method. *)
Definition dict_get (o : value) (k : string) (default : value) : result value :=
  match o with
  | VDict d =>
      match d !! k with
      | Some v => mret v
      | None => mret default
      end
  | _ => raise AttributeError
           ("'" +:+ type_name o +:+ "' object has no attribute 'get'")
  end.

(** [v == s] for a string literal [s]. *)
Definition eq_str (v : value) (s : string) : bool :=
  match v with
  | VStr s' => String.eqb s' s
  | _ => false
  end.

(** [s in sub] on two strings: substring search. *)
Definition is_substring (sub s : string) : bool :=
  match String.index 0 sub s with
  | Some _ => true
  | None => false
  end.

(** [k in o] for a string [k]: key membership in a [dict], substring
    in a [str], element membership in a [list]; the scalars are not
    iterable. *)
Definition contains (k : string) (o : value) : result bool :=
  match o with
  | VDict d =>
      match d !! k with
      | Some _ => mret true
      | None => mret false
      end
  | VStr s => mret (is_substring k s)
  | VList l => mret (existsb (fun v => eq_str v k) l)
  | _ => raise TypeError
           ("argument of type '" +:+ type_name o +:+ "' is not iterable")
  end.

(** Truth value of an object, as [or], [and] and [if] test it. *)
Definition truthy (v : value) : bool :=
  match v with
  | VNone => false
  | VBool b => b
  | VInt z => negb (z =? 0)
  | VFloat f => negb (PrimFloat.eqb f 0%float)
  | VStr s => negb (String.eqb s "")
  | VList l => match l with [] => false | _ => true end
  | VDict d => negb (bool_decide (d = ∅))
  end.

(** [a or b] *)
Definition or_else (a b : value) : value := if truthy a then a else b.

(** [f < z] for a float [f] and an integer [z].  Python compares an
    [int] with a [float] by their exact values, with no rounding of
    the integer. *)
Definition float_lt_int (f : float) (z : Z) : bool :=
  match Prim2SF f with
  | S754_zero _ => 0 <? z
  | S754_infinity s => s
  | S754_nan => false
  | S754_finite s m e =>
      let mz := if s then Z.neg m else Z.pos m in
      if 0 <=? e then mz * 2 ^ e <? z else mz <? z * 2 ^ (- e)
  end.

(** [a > f] where [f] is a float: floats compare by IEEE 754 (every
    comparison with NaN is false), [int] and [bool] (a subclass of
    [int]) by exact value; anything else raises [TypeError]. *)
Definition gt_float (a : value) (f : float) : result bool :=
  match a with
  | VFloat c => mret (PrimFloat.ltb f c)
  | VInt z => mret (float_lt_int f z)
  | VBool b => mret (float_lt_int f (if b then 1 else 0))
  | _ => raise TypeError
           ("'>' not supported between instances of '" +:+ type_name a
            +:+ "' and 'float'")
  end.

(** [str.rstrip(c)] for a single character [c]. *)
Fixpoint rstrip (c : Ascii.ascii) (s : string) : string :=
  match s with
  | EmptyString => EmptyString
  | String a s' =>
      match rstrip c s' with
      | EmptyString => if Ascii.eqb a c then EmptyString else String a EmptyString
      | r => String a r
      end
  end.

(** [format(v, '')], which is what an f-string field [{v}] inserts: a
    [str] as it is, [None], [bool] and [int] by [str(v)].  The text of a
    [float], [list] or [dict] is left to [repr], which is not modelled. *)
Definition format (repr : value -> string) (v : value) : string :=
  match v with
  | VStr s => s
  | VNone => "None"
  | VBool b => if b then "True" else "False"
  | VInt z => pretty z
  | _ => repr v
  end.

(** [try: body  except C1 as e: h1  except C2 as e: h2 ...]: the first
    clause whose class test accepts the exception handles it; an
    exception no clause accepts propagates. *)
Fixpoint handle {A : Type} (e : exc)
    (clauses : list ((exc_class -> bool) * (exc -> result A))) : result A :=
  match clauses with
  | [] => inl e
  | (accepts, handler) :: clauses' =>
      if accepts (exc_type e) then handler e else handle e clauses'
  end.

Definition try_except {A : Type} (body : result A)
    (clauses : list ((exc_class -> bool) * (exc -> result A))) : result A :=
  match body with
  | inr v => inr v
  | inl e => handle e clauses
  end.

End Py.

Import Py.

(** ** [lightspeed_client.py] *)

Module LightspeedClient.

(** What [requests] hands back for a request that got an answer: the
    status code, the body text, and what [response.json()] does (it raises
    on a body that is not JSON). *)
Record http_response : Type := HttpResponse {
  status_code : Z;
  text : string;
  json : result value
}.

(** [session.post(url, json=payload, timeout=timeout)]: the network is
    outside the program, so its behaviour is a parameter.  It either
    raises (connection refused, DNS failure, timeout, a payload that does
    not serialise, ...) or returns a response. *)
Definition transport : Type := string -> value -> Z -> result http_response.

(** The fields [__init__] sets ([self.session] is the transport). *)
Record t : Type := Client { server_url : string; timeout : Z }.

(** [LightspeedClient(server_url, timeout=30)] *)
Definition init (url : string) (seconds : Z) : t :=
  {| server_url := rstrip (Ascii.ascii_of_nat 47) url; timeout := seconds |}.

(** The failure shape [{'error': msg}]. *)
Definition error_response (msg : string) : value :=
  VDict {[ "error" := VStr msg ]}.

Section Client.

Variable session_post : transport.

(** [LightspeedClient.query], lines 42-73. *)
Definition query (self : t) (question : string) (context : value) : result value :=
  try_except
    (let payload :=
       VDict {[ "question" := VStr question;
                "context" := or_else context (VDict ∅) ]} in
     response ← session_post (server_url self +:+ "/query") payload (timeout self);
     if status_code response =? 200 then
       json response
     else
       mret (error_response
               ("HTTP " +:+ pretty (status_code response) +:+ ": " +:+ text response)))
    [ (is_RequestException,
       fun e => mret (error_response ("Request failed: " +:+ exc_str e)));
      (is_Exception,
       fun e => mret (error_response ("Unexpected error: " +:+ exc_str e))) ].

(** [LightspeedClient.get_recommendations], lines 75-106. *)
Definition get_recommendations (self : t) (issue_type : string) (context : value)
    : result value :=
  try_except
    (let payload :=
       VDict {[ "issue_type" := VStr issue_type; "context" := context ]} in
     response ← session_post (server_url self +:+ "/recommendations") payload
                  (timeout self);
     if status_code response =? 200 then
       json response
     else
       mret (error_response
               ("HTTP " +:+ pretty (status_code response) +:+ ": " +:+ text response)))
    [ (is_RequestException,
       fun e => mret (error_response ("Request failed: " +:+ exc_str e)));
      (is_Exception,
       fun e => mret (error_response ("Unexpected error: " +:+ exc_str e))) ].

End Client.

(** *** Reading the network *)

(** The one request [query] makes, and what came of it. *)
Definition query_outcome (post : transport) (self : t) (question : string)
    (context : value) : result http_response :=
  post (server_url self +:+ "/query")
    (VDict {[ "question" := VStr question;
              "context" := or_else context (VDict ∅) ]})
    (timeout self).

(** A network that gives the same outcome to every request. *)
Definition replies (outcome : result http_response) : transport :=
  fun _ _ _ => outcome.

(** Every exception the network or [response.json()] raises is an
    instance of [Exception]: a failure of the transport or of the
    protocol, not an interrupt of the process. *)
Definition raises_exceptions_only (post : transport) : Prop :=
  forall url payload seconds,
    match post url payload seconds with
    | inl e => is_Exception (exc_type e) = true
    | inr r =>
        match json r with
        | inl e => is_Exception (exc_type e) = true
        | inr _ => True
        end
    end.

(** The message of the failure shape for a caught exception: the first
    clause of [query] takes the [RequestException]s, the second the rest. *)
Definition caught_message (e : exc) : string :=
  (if is_RequestException (exc_type e)
   then "Request failed: " else "Unexpected error: ") +:+ exc_str e.

End LightspeedClient.

(** ** [pattern_alert_response.py] *)

Module AlertResponse.

(** [extract_insights], lines 31-54.  [now] is the text that
    [datetime.now().isoformat()] yields when the call is made: the clock
    is read by the success branch only. *)
Definition extract_insights (now : string) (response : value) : result value :=
  has_error ← contains "error" response;
  if (has_error : bool) then
    message ← getitem response "error";
    mret (VDict {[ "status" := VStr "error"; "message" := message ]})
  else
    answer ← dict_get response "answer" (VStr "");
    confidence ← dict_get response "confidence" (VFloat 0);
    sources ← dict_get response "sources" (VList []);
    recommendations ← dict_get response "recommendations" (VList []);
    mret (VDict {[ "status" := VStr "success";
                   "timestamp" := VStr now;
                   "answer" := answer;
                   "confidence" := confidence;
                   "sources" := sources;
                   "recommendations" := recommendations ]}).

(** [alert['labels']['alertname']], lines 71, 99 and 108. *)
Definition alertname (alert : value) : result value :=
  labels ← getitem alert "labels";
  getitem labels "alertname".

(** The context of [handle_prometheus_alert], lines 70-75. *)
Definition build_context (alert : value) : result value :=
  alert_name ← alertname alert;
  labels ← getitem alert "labels";
  namespace ← dict_get labels "namespace" (VStr "default");
  labels ← getitem alert "labels";
  severity ← dict_get labels "severity" (VStr "warning");
  annotations ← getitem alert "annotations";
  description ← dict_get annotations "description" (VStr "");
  mret (VDict {[ "alert_name" := alert_name;
                 "namespace" := namespace;
                 "severity" := severity;
                 "description" := description ]}).

(** The routing of [handle_prometheus_alert], lines 88-112: the insight
    is classified in one step against the literal [0.8]. *)
Definition decide_action (alert insights : value) : result value :=
  status ← getitem insights "status";
  if eq_str status "error" then
    message ← getitem insights "message";
    mret (VDict {[ "action" := VStr "error"; "message" := message ]})
  else
    confidence ← getitem insights "confidence";
    high ← gt_float confidence 0.8;
    if (high : bool) then
      alert_name ← alertname alert;
      confidence ← getitem insights "confidence";
      recommendations ← getitem insights "recommendations";
      answer ← getitem insights "answer";
      mret (VDict {[ "action" := VStr "auto_remediate";
                     "alert" := alert_name;
                     "confidence" := confidence;
                     "recommendations" := recommendations;
                     "analysis" := answer ]})
    else
      alert_name ← alertname alert;
      confidence ← getitem insights "confidence";
      mret (VDict {[ "action" := VStr "escalate";
                     "alert" := alert_name;
                     "confidence" := confidence;
                     "analysis" := insights;
                     "reason" := VStr "Low confidence in automated remediation" ]}).

Section Handler.

(** The text of a [float], [list] or [dict] in an f-string. *)
Variable repr : value -> string.

(** The network behind [LightspeedClient.session]. *)
Variable session_post : LightspeedClient.transport.

(** The question of [handle_prometheus_alert], line 81. *)
Definition build_question (context : value) : result string :=
  description ← getitem context "description";
  mret ("Analyze this alert and suggest remediation: " +:+ format repr description).

(** Lines 70-75 and 81 together: the question and the context that one
    alert contributes to the query (the specification's [buildContext]). *)
Definition build_query (alert : value) : result (string * value) :=
  context ← build_context alert;
  question ← build_question context;
  mret (question, context).

(** [handle_prometheus_alert], lines 57-112. *)
Definition handle_prometheus_alert (now : string) (alert : value) (server_url : string)
    : result value :=
  context ← build_context alert;
  let client := LightspeedClient.init server_url 30 in
  question ← build_question context;
  analysis ← LightspeedClient.query session_post client question context;
  insights ← extract_insights now analysis;
  decide_action alert insights.

End Handler.

(** *** Reading alerts, insights and decisions *)

(** The action a call ended with, when it returned a decision. *)
Definition action (r : result value) : option string :=
  match r with
  | inr (VDict d) =>
      match d !! "action" with
      | Some (VStr a) => Some a
      | _ => None
      end
  | _ => None
  end.

(** [alert[outer][inner]] when both levels are there. *)
Definition nested (alert : value) (outer inner : string) : option value :=
  match alert with
  | VDict al =>
      match al !! outer with
      | Some (VDict m) => m !! inner
      | _ => None
      end
  | _ => None
  end.

(** The alert is a mapping with a [labels] mapping that has an
    [alertname], and an [annotations] mapping: what lines 71-74 subscript
    rather than [.get]. *)
Definition has_required_fields (alert : value) : bool :=
  match alert with
  | VDict al =>
      match al !! "labels", al !! "annotations" with
      | Some (VDict labels), Some (VDict _) =>
          match labels !! "alertname" with
          | Some _ => true
          | None => false
          end
      | _, _ => false
      end
  | _ => false
  end.


(** A success insight whose confidence is the value [cv], of whatever
    type, with the fields the routing reads. *)
Definition success_with (ins : gmap string value) (cv : value) : Prop :=
  ins !! "status" = Some (VStr "success")
  /\ ins !! "confidence" = Some cv
  /\ is_Some (ins !! "answer")
  /\ is_Some (ins !! "recommendations").

(** An error insight carrying the message [m]. *)
Definition error_insight (ins : gmap string value) (m : value) : Prop :=
  ins !! "status" = Some (VStr "error") /\ ins !! "message" = Some m.

(** An insight with its [timestamp] field removed. *)
Definition without_timestamp (r : result value) : result value :=
  match r with
  | inr (VDict d) => inr (VDict (delete "timestamp" d))
  | _ => r
  end.

End AlertResponse.

(** ** Concrete inputs *)

Module Scenario.

(** [sample_alert] of [main], lines 142-153. *)
Definition sample_alert : value :=
  VDict {[ "labels" :=
             VDict {[ "alertname" := VStr "HighPodCPU";
                      "namespace" := VStr "self-healing-platform";
                      "pod" := VStr "coordination-engine-0";
                      "severity" := VStr "warning" ]};
           "annotations" :=
             VDict {[ "description" :=
                        VStr "Pod coordination-engine-0 in namespace self-healing-platform is using 85% CPU";
                      "summary" := VStr "High CPU usage detected" ]} ]}.

(** An alert with a name and nothing else in its two mappings. *)
Definition bare_alert : value :=
  VDict {[ "labels" := VDict {[ "alertname" := VStr "HighPodCPU" ]};
           "annotations" := VDict ∅ ]}.


Definition alert_without_name : value :=
  VDict {[ "labels" := VDict {[ "namespace" := VStr "self-healing-platform" ]};
           "annotations" := VDict {[ "description" := VStr "Pod X using 85% CPU" ]} ]}.

(** A success body with the given confidence. *)
Definition body (confidence : value) : gmap string value :=
  {[ "answer" := VStr "Restart pod"; "confidence" := confidence ]}.

(** A body that has an error next to every success field. *)
Definition mixed_body : gmap string value :=
  {[ "error" := VStr "backend unavailable";
     "answer" := VStr "Restart pod";
     "confidence" := VFloat 0.92;
     "sources" := VList [VStr "runbook"];
     "recommendations" := VList [VStr "restart"] ]}.

(** The insight [extract_insights] builds for a body with confidence [c]. *)
Definition insight (c : float) : gmap string value :=
  {[ "status" := VStr "success";
     "timestamp" := VStr "2026-01-01T09:00:00";
     "answer" := VStr "Restart pod";
     "confidence" := VFloat c;
     "sources" := VList [];
     "recommendations" := VList [] ]}.

Definition timeout_insight : gmap string value :=
  {[ "status" := VStr "error"; "message" := VStr "Request failed: timed out" ]}.

(** A 200 answer with a JSON body, a 503 answer, and a timeout. *)
Definition ok (v : value) : result LightspeedClient.http_response :=
  inr (LightspeedClient.HttpResponse 200 "" (inr v)).

Definition unavailable : result LightspeedClient.http_response :=
  inr (LightspeedClient.HttpResponse 503 "Service Unavailable"
         (raise JSONDecodeError "Expecting value: line 1 column 1 (char 0)")).

Definition timed_out : result LightspeedClient.http_response :=
  raise Timeout "Read timed out. (read timeout=30)".

(** [repr] is not needed where every formatted field is a string. *)
Definition no_repr (v : value) : string := "".

End Scenario.

(** ** Reading the wire and the decisions *)

Module Wire.

(** ['/'], the character [__init__] strips. *)
Definition slash : Ascii.ascii := Ascii.ascii_of_nat 47.

(** [n] slashes in a row. *)
Fixpoint slashes (n : nat) : string :=
  match n with
  | O => EmptyString
  | S n' => String slash (slashes n')
  end.

(** [s.endswith(c)] for one character. *)
Fixpoint ends_with (c : Ascii.ascii) (s : string) : bool :=
  match s with
  | EmptyString => false
  | String a EmptyString => Ascii.eqb a c
  | String _ s' => ends_with c s'
  end.

(** The one request [get_recommendations] makes, and what came of it. *)
Definition recommendations_outcome (post : LightspeedClient.transport)
    (self : LightspeedClient.t) (issue_type : string) (context : value)
    : result LightspeedClient.http_response :=
  post (LightspeedClient.server_url self +:+ "/recommendations")
    (VDict {[ "issue_type" := VStr issue_type; "context" := context ]})
    (LightspeedClient.timeout self).

(** The message the client puts into its failure shape for an outcome of
    the request, when the outcome is a failure the client catches: an
    exception that is an [Exception], a status other than 200, or a 200
    whose body does not parse. *)
Definition failure_message (outcome : result LightspeedClient.http_response)
    : option string :=
  match outcome with
  | inl e =>
      if is_Exception (exc_type e)
      then Some (LightspeedClient.caught_message e) else None
  | inr r =>
      if LightspeedClient.status_code r =? 200 then
        match LightspeedClient.json r with
        | inl e =>
            if is_Exception (exc_type e)
            then Some (LightspeedClient.caught_message e) else None
        | inr _ => None
        end
      else
        Some ("HTTP " +:+ pretty (LightspeedClient.status_code r) +:+ ": "
              +:+ LightspeedClient.text r)
  end.

(** A JSON object, which [json.loads] gives as a [dict]. *)
Definition is_mapping (v : value) : bool :=
  match v with
  | VDict _ => true
  | _ => false
  end.

(** A call returned rather than raised. *)
Definition is_returned {A : Type} (r : result A) : bool :=
  match r with
  | inr _ => true
  | inl _ => false
  end.

End Wire.

Module Decision.

(** [int], [bool] and [float]: what [>] accepts against a float. *)
Definition numeric (v : value) : bool :=
  match v with
  | VFloat _ | VInt _ | VBool _ => true
  | _ => false
  end.

(** The name the decisions carry. *)
Definition alert_name (alert : value) : value :=
  default VNone (AlertResponse.nested alert "labels" "alertname").

(** The context and the question of an alert that has its required
    fields, read off the alert. *)
Definition alert_context (alert : value) : gmap string value :=
  {[ "alert_name" := alert_name alert;
     "namespace" :=
       default (VStr "default") (AlertResponse.nested alert "labels" "namespace");
     "severity" :=
       default (VStr "warning") (AlertResponse.nested alert "labels" "severity");
     "description" :=
       default (VStr "") (AlertResponse.nested alert "annotations" "description") ]}.

Definition alert_question (repr : value -> string) (alert : value) : string :=
  "Analyze this alert and suggest remediation: "
  +:+ format repr
        (default (VStr "") (AlertResponse.nested alert "annotations" "description")).

(** The success insight of a body [d] read at time [now]. *)
Definition insight_of (now : string) (d : gmap string value) : gmap string value :=
  {[ "status" := VStr "success";
     "timestamp" := VStr now;
     "answer" := default (VStr "") (d !! "answer");
     "confidence" := default (VFloat 0) (d !! "confidence");
     "sources" := default (VList []) (d !! "sources");
     "recommendations" := default (VList []) (d !! "recommendations") ]}.

(** The three decisions. *)
Definition auto_remediate (name : value) (d : gmap string value) : value :=
  VDict {[ "action" := VStr "auto_remediate";
           "alert" := name;
           "confidence" := default (VFloat 0) (d !! "confidence");
           "recommendations" := default (VList []) (d !! "recommendations");
           "analysis" := default (VStr "") (d !! "answer") ]}.

Definition escalate (name : value) (now : string) (d : gmap string value) : value :=
  VDict {[ "action" := VStr "escalate";
           "alert" := name;
           "confidence" := default (VFloat 0) (d !! "confidence");
           "analysis" := VDict (insight_of now d);
           "reason" := VStr "Low confidence in automated remediation" ]}.

Definition error (message : value) : value :=
  VDict {[ "action" := VStr "error"; "message" := message ]}.

(** The outcomes of the request on which the pipeline returns a decision:
    a failure the client catches, or a 200 whose body is a mapping that
    has an error, or no confidence, or a confidence that is a number. *)
Definition answerable (outcome : result LightspeedClient.http_response) : bool :=
  match outcome with
  | inl e => is_Exception (exc_type e)
  | inr r =>
      if LightspeedClient.status_code r =? 200 then
        match LightspeedClient.json r with
        | inl e => is_Exception (exc_type e)
        | inr (VDict d) =>
            match d !! "error", d !! "confidence" with
            | Some _, _ => true
            | None, None => true
            | None, Some c => numeric c
            end
        | inr _ => false
        end
      else true
  end.

End Decision.

(** ** The console, and two more operators *)

Module Console.

(** A computation that prints: the lines printed, in order, and how it
    ended.  Each [print] call of the source is one line. *)
Definition io (A : Type) : Type := list string * result A.

#[global] Instance io_ret : MRet io := fun A x => ([], inr x).
#[global] Instance io_bind : MBind io := fun A B f m =>
  match m with
  | (out, inl e) => (out, inl e)
  | (out, inr x) => let (out', r) := f x in (out ++ out', r)
  end.

(** [print(line)] *)
Definition print (line : string) : io unit := ([line], inr tt).

(** A step that prints nothing. *)
Definition run {A : Type} (r : result A) : io A := ([], r).

Definition printed {A : Type} (m : io A) : list string := fst m.
Definition outcome {A : Type} (m : io A) : result A := snd m.

(** A [str] is held as the bytes of its UTF-8 text, so a character (a
    code point) is a byte that is not a continuation byte, together with
    the continuation bytes [10xxxxxx] that follow it. *)
Definition is_continuation (a : Ascii.ascii) : bool :=
  let n := Ascii.nat_of_ascii a in
  (128 <=? n)%nat && (n <? 192)%nat.

(** [len(s)]: the number of characters. *)
Fixpoint chars (s : string) : nat :=
  match s with
  | EmptyString => O
  | String a s' => if is_continuation a then chars s' else S (chars s')
  end.

(** [s[:n]]: the first [n] characters, each with all its bytes. *)
Fixpoint take_chars (n : nat) (s : string) : string :=
  match s with
  | EmptyString => EmptyString
  | String a s' =>
      if is_continuation a then String a (take_chars n s')
      else
        match n with
        | O => EmptyString
        | S n' => String a (take_chars n' s')
        end
  end.

(** [v[:n]]: the first [n] characters of a [str], the first [n] items of
    a [list]; the scalars are not subscriptable.  A [dict] hashes the
    slice to look it up as a key: where slices are hashable (Python 3.12
    and later, [hashable_slices = true]) the key is missing, and where
    they are not the hashing itself fails. *)
Definition slice_to (hashable_slices : bool) (n : nat) (v : value) : result value :=
  match v with
  | VStr s => mret (VStr (take_chars n s))
  | VList l => mret (VList (take n l))
  | VDict _ =>
      if hashable_slices
      then raise KeyError ("slice(None, " +:+ pretty n +:+ ", None)")
      else raise TypeError "unhashable type: 'slice'"
  | _ => raise TypeError ("'" +:+ type_name v +:+ "' object is not subscriptable")
  end.

(** The double quote. *)
Definition quote : Ascii.ascii := Ascii.ascii_of_nat 34.

(** [v + s] for a string [s]: only a [str] can take it. *)
Definition add_str (v : value) (s : string) : result value :=
  match v with
  | VStr s' => mret (VStr (s' +:+ s))
  | VList _ =>
      raise TypeError
        ("can only concatenate list (not " +:+ String quote "str"
         +:+ String quote ") to list")
  | _ => raise TypeError
           ("unsupported operand type(s) for +: '" +:+ type_name v +:+ "' and 'str'")
  end.

End Console.

(** ** [pattern_capacity_planning.py] *)

Module CapacityPlanning.

Import Console.

(** The times of line 58. *)
Definition times : list string := ["9 AM"; "12 PM"; "3 PM"; "6 PM"].

(** The report of lines 76-89, built from what the calls returned. *)
Definition build_report (now namespace server_url : string)
    (current : value) (predictions : gmap string value) (recommendations : value)
    : result value :=
  answer ← dict_get current "answer" (VStr "No data available");
  confidence ← dict_get current "confidence" (VFloat 0);
  has_error ← contains "error" recommendations;
  kept ← (if negb has_error then mret recommendations
          else (e ← getitem recommendations "error";
                mret (VDict {[ "error" := e ]})));
  mret (VDict {[ "namespace" := VStr namespace;
                 "generated_at" := VStr now;
                 "current_usage" :=
                   VDict {[ "answer" := answer; "confidence" := confidence ]};
                 "predictions" := VDict predictions;
                 "recommendations" := kept;
                 "metadata" :=
                   VDict {[ "server" := VStr server_url;
                            "report_version" := VStr "1.0" ]} ]}).

Section Report.

Variable post : LightspeedClient.transport.

(** The loop of lines 58-66, from [predictions] on. *)
Fixpoint predict (client : LightspeedClient.t) (namespace : string)
    (remaining : list string) (predictions : gmap string value)
    : io (gmap string value) :=
  match remaining with
  | [] => mret predictions
  | time :: remaining' =>
      pred ← run (LightspeedClient.query post client
                    ("What will resource usage be at " +:+ time +:+ "?")
                    (VDict {[ "namespace" := VStr namespace ]}));
      answer ← run (dict_get pred "answer" (VStr "No prediction available"));
      confidence ← run (dict_get pred "confidence" (VFloat 0));
      predict client namespace remaining'
        (<[time := VDict {[ "answer" := answer; "confidence" := confidence ]}]>
           predictions)
  end.

(** [generate_capacity_report], lines 32-91.  [now] is the text of
    [datetime.now().isoformat()] when the report is built. *)
Definition generate_capacity_report (now namespace server_url : string) : io value :=
  let client := LightspeedClient.init server_url 30 in
  print ("Generating capacity report for " +:+ namespace +:+ "...");;
  print "  1/3 Fetching current resource usage...";;
  current ← run (LightspeedClient.query post client
                   ("What's the current resource usage in " +:+ namespace +:+ "?")
                   (VDict {[ "namespace" := VStr namespace ]}));
  print "  2/3 Generating time-based predictions...";;
  predictions ← predict client namespace times ∅;
  print "  3/3 Fetching capacity recommendations...";;
  recommendations ← run (LightspeedClient.get_recommendations post client
                           "capacity_planning"
                           (VDict {[ "namespace" := VStr namespace;
                                     "timeframe" := VStr "7 days" ]}));
  run (build_report now namespace server_url current predictions recommendations).

End Report.

(** *** Reading a report *)

(** The entry of one prediction, from what its query returned. *)
Definition prediction_entry (pred : gmap string value) : value :=
  VDict {[ "answer" := default (VStr "No prediction available") (pred !! "answer");
           "confidence" := default (VFloat 0) (pred !! "confidence") ]}.

(** What the report keeps of the recommendations. *)
Definition kept_recommendations (recommendations : gmap string value) : value :=
  match recommendations !! "error" with
  | Some e => VDict {[ "error" := e ]}
  | None => VDict recommendations
  end.

(** Every JSON body the network delivers is an object. *)
Definition delivers_mappings (post : LightspeedClient.transport) : Prop :=
  forall url payload seconds,
    match post url payload seconds with
    | inr r =>
        match LightspeedClient.json r with
        | inr (VDict _) | inl _ => True
        | inr _ => LightspeedClient.status_code r <> 200
        end
    | inl _ => True
    end.

(** The four progress lines. *)
Definition progress (namespace : string) : list string :=
  [ "Generating capacity report for " +:+ namespace +:+ "...";
    "  1/3 Fetching current resource usage...";
    "  2/3 Generating time-based predictions...";
    "  3/3 Fetching capacity recommendations..." ].

End CapacityPlanning.

(** ** [pattern_batch_analysis.py] *)

Module BatchAnalysis.

Import Console.

(** An entry of [sample_pods]: its name and its status. *)
Record pod : Type := Pod { name : string; status : string }.

(** [sample_pods], lines 67-72. *)
Definition sample_pods : list pod :=
  [ Pod "coordination-engine-0" "Running";
    Pod "mcp-server-abc123" "Running";
    Pod "predictive-analytics-predictor-xyz" "CrashLoopBackOff";
    Pod "anomaly-detector-predictor-abc" "Error" ].

(** A row of the results: the dictionaries [pd.DataFrame] is given. *)
Definition row (p : pod) (analysis confidence : value) : value :=
  VDict {[ "pod" := VStr (name p);
           "status" := VStr (status p);
           "analysis" := analysis;
           "confidence" := confidence ]}.

Section Fleet.

(** Whether the interpreter hashes slices (Python 3.12 and later). *)
Variable hashable_slices : bool.

Variable repr : value -> string.
Variable post : LightspeedClient.transport.

(** The loop of lines 76-97, from [results] on. *)
Fixpoint analyze (client : LightspeedClient.t) (namespace : string)
    (pods : list pod) (results : list value) : io (list value) :=
  match pods with
  | [] => mret results
  | p :: pods' =>
      if negb (String.eqb (status p) "Running") then
        print ("  Analyzing problematic pod: " +:+ name p
               +:+ " (status: " +:+ status p +:+ ")");;
        analysis ← run (LightspeedClient.query post client
                          ("Why is pod " +:+ name p +:+ " not running?")
                          (VDict {[ "namespace" := VStr namespace;
                                    "pod" := VStr (name p) ]}));
        answer ← run (dict_get analysis "answer" (VStr "No analysis available"));
        head ← run (slice_to hashable_slices 100 answer);
        text ← run (add_str head "...");
        confidence ← run (dict_get analysis "confidence" (VFloat 0));
        analyze client namespace pods' (results ++ [row p text confidence])
      else
        analyze client namespace pods'
          (results ++ [row p (VStr "Pod is healthy") (VFloat 1)])
  end.

(** [analyze_pod_fleet], lines 36-99.  The result is the rows of the
    frame, none for [pd.DataFrame()]. *)
Definition analyze_pod_fleet (namespace server_url : string) : io (list value) :=
  let client := LightspeedClient.init server_url 30 in
  print ("Querying Lightspeed for pods in " +:+ namespace +:+ "...");;
  pods_response ← run (LightspeedClient.query post client
                         ("List all pods in " +:+ namespace +:+ " with their status")
                         (VDict {[ "namespace" := VStr namespace ]}));
  has_error ← run (contains "error" pods_response);
  if (has_error : bool) then
    e ← run (getitem pods_response "error");
    print ("Error getting pod list: " +:+ format repr e);;
    mret []
  else
    analyze client namespace sample_pods [].

End Fleet.

(** *** Reading the rows *)

(** The text of the analysis column for an answer. *)
Definition clipped (answer : string) : string :=
  take_chars 100 answer +:+ "...".

(** The answer of a response as line 87 reads it, when that is text:
    the answer itself, or the placeholder when there is none. *)
Definition answer_text (d : gmap string value) : option string :=
  match d !! "answer" with
  | Some (VStr s) => Some s
  | Some _ => None
  | None => Some "No analysis available"
  end.

(** The three requests of the sample fleet: the list, and one for each
    pod that is not running. *)
Definition list_question (namespace : string) : string :=
  "List all pods in " +:+ namespace +:+ " with their status".

Definition why_question (p : pod) : string :=
  "Why is pod " +:+ name p +:+ " not running?".

Definition why_context (namespace : string) (p : pod) : value :=
  VDict {[ "namespace" := VStr namespace; "pod" := VStr (name p) ]}.

Definition analyzing_line (p : pod) : string :=
  "  Analyzing problematic pod: " +:+ name p +:+ " (status: " +:+ status p +:+ ")".

(** The two sample pods that are not running. *)
Definition crashing_pod : pod :=
  Pod "predictive-analytics-predictor-xyz" "CrashLoopBackOff".

Definition failed_pod : pod := Pod "anomaly-detector-predictor-abc" "Error".

(** The rows of the two that are. *)
Definition healthy_rows : list value :=
  [ row (Pod "coordination-engine-0" "Running") (VStr "Pod is healthy") (VFloat 1);
    row (Pod "mcp-server-abc123" "Running") (VStr "Pod is healthy") (VFloat 1) ].

(** A network that answers the list of pods and times out on every other
    request. *)
Definition lists_only : LightspeedClient.transport :=
  fun url payload seconds =>
    match payload with
    | VDict d =>
        match d !! "question" with
        | Some (VStr question) =>
            if String.prefix "List all pods" question
            then inr (LightspeedClient.HttpResponse 200 ""
                        (inr (VDict {[ "answer" := VStr "4 pods" ]})))
            else raise Timeout "Read timed out. (read timeout=30)"
        | _ => raise Timeout "Read timed out. (read timeout=30)"
        end
    | _ => raise Timeout "Read timed out. (read timeout=30)"
    end.

(** [s.endswith(suffix)] *)
Fixpoint ends_with (suffix s : string) : bool :=
  String.eqb s suffix
  || match s with
     | EmptyString => false
     | String _ s' => ends_with suffix s'
     end.

End BatchAnalysis.

(** * Properties *)

Import AlertResponse.

(** ** IEEE 754 order *)

Section FloatOrder.

Lemma SFcompare_antisym (x y : spec_float) :
  SFcompare y x = option_map CompOpp (SFcompare x y).
Proof.
  destruct x as [sx|sx| |sx mx ex], y as [sy|sy| |sy my ey]; simpl;
    try reflexivity; try (destruct sx; reflexivity); try (destruct sy; reflexivity);
    try (destruct sx, sy; reflexivity).
  destruct sx, sy; simpl; try reflexivity;
    rewrite (Z.compare_antisym ex ey); destruct (ex ?= ey)%Z; simpl; try reflexivity;
    rewrite (Pos.compare_cont_antisym); simpl; auto.
  all: destruct (Pos.compare_cont Eq mx my); reflexivity.
Qed.

Lemma is_nan_false (c : float) : is_nan c = false -> Prim2SF c <> S754_nan.
Proof.
  unfold is_nan. rewrite FloatAxioms.eqb_spec. intros H E. rewrite E in H. discriminate.
Qed.

Lemma SFcompare_Some (x y : spec_float) :
  x <> S754_nan -> y <> S754_nan -> exists c, SFcompare x y = Some c.
Proof.
  intros Hx Hy. destruct x, y; try congruence; simpl; eauto.
Qed.

(** Away from NaN the order is total: [x < y] is the negation of [y <= x]. *)
Lemma ltb_negb_leb (x y : float) :
  is_nan x = false -> is_nan y = false -> (x <? y)%float = negb (y <=? x)%float.
Proof.
  intros Hx%is_nan_false Hy%is_nan_false.
  rewrite ltb_spec, leb_spec. unfold SFltb, SFleb.
  rewrite (SFcompare_antisym (Prim2SF x) (Prim2SF y)).
  destruct (SFcompare_Some _ _ Hx Hy) as [c ->]. destruct c; reflexivity.
Qed.

(** NaN is neither above nor at-or-below anything. *)
Lemma nan_unordered (t : float) :
  (t <? nan)%float = false /\ (nan <=? t)%float = false.
Proof.
  rewrite ltb_spec, leb_spec. unfold SFltb, SFleb.
  replace (Prim2SF nan) with S754_nan by reflexivity.
  split; [destruct (Prim2SF t) | ]; reflexivity.
Qed.

(** Against 0.8 an integer is above exactly when it is at least 1. *)
Lemma float_lt_int_threshold (z : Z) : float_lt_int 0.8 z = (1 <=? z).
Proof.
  unfold float_lt_int.
  replace (Prim2SF 0.8) with (S754_finite false 7205759403792794 (-53))
    by reflexivity.
  change (0 <=? (-53)) with false. cbv iota zeta.
  change (2 ^ (- (-53))) with 9007199254740992.
  destruct (Z.ltb_spec 7205759403792794 (z * 9007199254740992)),
    (Z.leb_spec 1 z); try reflexivity; lia.
Qed.

Lemma SFcompare_refl (x : spec_float) : x <> S754_nan -> SFcompare x x = Some Eq.
Proof.
  destruct x as [s | s | | s m e]; try congruence; intros _; simpl.
  - reflexivity.
  - by destruct s.
  - destruct s; rewrite Z.compare_refl, Pos.compare_cont_refl; reflexivity.
Qed.

Lemma is_nan_true (c : float) : is_nan c = true -> Prim2SF c = S754_nan.
Proof.
  unfold is_nan. rewrite FloatAxioms.eqb_spec. unfold SFeqb. intros H.
  destruct (Prim2SF c) as [s | s | | s m e] eqn:Hc; [| | reflexivity |];
    rewrite SFcompare_refl in H by discriminate; discriminate H.
Qed.

(** Nothing is below a NaN. *)
Lemma ltb_nan (t c : float) : is_nan c = true -> (t <? c)%float = false.
Proof.
  intros Hc%is_nan_true. rewrite ltb_spec, Hc. unfold SFltb.
  by destruct (Prim2SF t).
Qed.

End FloatOrder.

(** ** The routing step *)

Section Routing.

Variables (alert : value) (ins : gmap string value).

Lemma decide_action_error (m : value) :
  error_insight ins m ->
  decide_action alert (VDict ins)
  = inr (VDict {[ "action" := VStr "error"; "message" := m ]}).
Proof.
  intros [Hs Hm]. unfold decide_action. simpl. rewrite Hs. simpl. rewrite Hm.
  reflexivity.
Qed.

Lemma decide_action_high (name st cv recs ans : value) :
  alertname alert = inr name ->
  ins !! "status" = Some st -> eq_str st "error" = false ->
  ins !! "confidence" = Some cv -> gt_float cv 0.8 = inr true ->
  ins !! "recommendations" = Some recs -> ins !! "answer" = Some ans ->
  decide_action alert (VDict ins)
  = inr (VDict {[ "action" := VStr "auto_remediate"; "alert" := name;
                 "confidence" := cv; "recommendations" := recs;
                 "analysis" := ans ]}).
Proof.
  intros Hn Hs He Hc Hg Hr Ha. unfold decide_action. simpl.
  rewrite Hs. simpl. rewrite He, Hc. simpl. rewrite Hg. simpl. rewrite Hn. simpl.
  rewrite Hr, Ha. reflexivity.
Qed.

Lemma decide_action_low (name st cv : value) :
  alertname alert = inr name ->
  ins !! "status" = Some st -> eq_str st "error" = false ->
  ins !! "confidence" = Some cv -> gt_float cv 0.8 = inr false ->
  decide_action alert (VDict ins)
  = inr (VDict {[ "action" := VStr "escalate"; "alert" := name;
                 "confidence" := cv; "analysis" := VDict ins;
                 "reason" := VStr "Low confidence in automated remediation" ]}).
Proof.
  intros Hn Hs He Hc Hg. unfold decide_action. simpl.
  rewrite Hs. simpl. rewrite He, Hc. simpl. rewrite Hg. simpl. rewrite Hn.
  reflexivity.
Qed.


End Routing.

(** On a success insight the action is read off what the comparison with
    0.8 says of the confidence, of whatever numeric type it is. *)
Lemma decide_action_compared (alert : value) (ins : gmap string value)
    (name cv : value) (above : bool) :
  alertname alert = inr name -> success_with ins cv ->
  gt_float cv 0.8 = inr above ->
  action (decide_action alert (VDict ins))
  = Some (if above then "auto_remediate" else "escalate").
Proof.
  intros Hn (Hs & Hc & [ans Ha] & [recs Hr]) Hg. destruct above.
  - by erewrite decide_action_high.
  - by erewrite decide_action_low.
Qed.

(** C1, as the claim has it, fails: a NaN confidence, which [json] does
    parse, is escalated although it is not at or below 0.8. *)
Example nan_escalates :
  action (decide_action Scenario.sample_alert (VDict (Scenario.insight nan)))
  = Some "escalate"
  /\ (nan <=? 0.8)%float = false.
Proof. split; reflexivity. Qed.

(** C1, amended.  The threshold is the 0.8 the routing compares against.
    On every success insight with a numeric confidence the decision is
    AutoRemediate exactly when the confidence is above 0.8 and Escalate
    exactly when it is not: for a float [c], when [0.8 < c] fails, which
    for every [c] but NaN is [c <= 0.8], so that [c = 0.8] escalates; for
    an integer, compared by its exact value, AutoRemediate from 1 upwards
    and Escalate from 0 downwards; for a boolean, AutoRemediate for [true]
    and Escalate for [false].  A confidence that is not a number raises
    [TypeError].  On every error insight the decision is Error, whether a
    confidence is present and whatever it is. *)
Theorem decide_action_strict_threshold (alert : value) (ins : gmap string value) :
  (forall name cv : value,
      alertname alert = inr name -> success_with ins cv ->
      match cv with
      | VFloat c =>
          (action (decide_action alert (VDict ins)) = Some "auto_remediate"
           <-> (0.8 <? c)%float = true)
          /\ (action (decide_action alert (VDict ins)) = Some "escalate"
              <-> (0.8 <? c)%float = false)
          /\ (is_nan c = false ->
              (action (decide_action alert (VDict ins)) = Some "escalate"
               <-> (c <=? 0.8)%float = true))
          /\ (is_nan c = true ->
              action (decide_action alert (VDict ins)) = Some "escalate")
          /\ (c = 0.8%float ->
              action (decide_action alert (VDict ins)) = Some "escalate")
      | VInt z =>
          (action (decide_action alert (VDict ins)) = Some "auto_remediate"
           <-> 1 <= z)
          /\ (action (decide_action alert (VDict ins)) = Some "escalate"
              <-> z <= 0)
      | VBool b =>
          (action (decide_action alert (VDict ins)) = Some "auto_remediate"
           <-> b = true)
          /\ (action (decide_action alert (VDict ins)) = Some "escalate"
              <-> b = false)
      | _ =>
          exists msg : string,
            decide_action alert (VDict ins) = raise TypeError msg
      end)
  /\ (forall (m c : value),
        error_insight ins m ->
        action (decide_action alert (VDict ins)) = Some "error"
        /\ action (decide_action alert (VDict (<["confidence" := c]> ins)))
           = Some "error").
Proof.
  split.
  - intros name cv Hn Hw.
    assert (Hraise : forall msg : string,
               gt_float cv 0.8 = raise TypeError msg ->
               decide_action alert (VDict ins) = raise TypeError msg).
    { intros msg Hg. destruct Hw as (Hs & Hc & _). unfold decide_action. simpl.
      rewrite Hs. simpl. rewrite Hc. simpl. by rewrite Hg. }
    destruct cv as [ | b | z | c | s | l | d]; try (eexists; by apply Hraise).
    + rewrite (decide_action_compared alert ins name (VBool b) _ Hn Hw eq_refl).
      rewrite float_lt_int_threshold. destruct b; simpl; split; split; congruence.
    + rewrite (decide_action_compared alert ins name (VInt z) _ Hn Hw eq_refl).
      rewrite float_lt_int_threshold.
      destruct (Z.leb_spec 1 z); split; split; intros; try congruence; lia.
    + rewrite (decide_action_compared alert ins name (VFloat c) _ Hn Hw eq_refl).
      split; [| split; [| split; [| split]]].
      * destruct (0.8 <? c)%float; split; congruence.
      * destruct (0.8 <? c)%float; split; congruence.
      * intros Hnan. rewrite (ltb_negb_leb 0.8 c) by (reflexivity || assumption).
        destruct (c <=? 0.8)%float; simpl; split; congruence.
      * intros Hnan. by rewrite (ltb_nan 0.8 c Hnan).
      * intros ->. reflexivity.
  - intros m c [Hs Hm]. split.
    + erewrite decide_action_error; [reflexivity | by split].
    + erewrite (decide_action_error alert _ m); [reflexivity |].
      split; by rewrite lookup_insert_ne.
Qed.

Lemma decide_action_strict_threshold_witness :
  action (decide_action Scenario.sample_alert (VDict (Scenario.insight 0.8)))
  = Some "escalate"
  /\ action (decide_action Scenario.sample_alert
               (VDict (<["confidence" := VInt 1]> (Scenario.insight 0.8))))
     = Some "auto_remediate"
  /\ action (decide_action Scenario.sample_alert (VDict Scenario.timeout_insight))
     = Some "error".
Proof.
  split; [| split].
  - apply (proj1 (decide_action_strict_threshold Scenario.sample_alert
                    (Scenario.insight 0.8))
             (VStr "HighPodCPU") (VFloat 0.8)).
    + reflexivity.
    + split; [reflexivity |]. split; [reflexivity |].
      split; eexists; reflexivity.
    + reflexivity.
  - apply (proj1 (decide_action_strict_threshold Scenario.sample_alert
                    (<["confidence" := VInt 1]> (Scenario.insight 0.8)))
             (VStr "HighPodCPU") (VInt 1)).
    + reflexivity.
    + split; [reflexivity |]. split; [reflexivity |].
      split; eexists; reflexivity.
    + lia.
  - apply (proj2 (decide_action_strict_threshold Scenario.sample_alert
                    Scenario.timeout_insight)
             (VStr "Request failed: timed out") VNone).
    split; reflexivity.
Defined.

(** Scenarios A and B: confidence 0.92 is remediated, 0.45 is escalated. *)
Example scenario_a :
  action (decide_action Scenario.sample_alert (VDict (Scenario.insight 0.92)))
  = Some "auto_remediate".
Proof. reflexivity. Qed.

Example scenario_b :
  action (decide_action Scenario.sample_alert (VDict (Scenario.insight 0.45)))
  = Some "escalate".
Proof. reflexivity. Qed.

(** An integer confidence is compared by its exact value. *)
Example integer_confidence :
  gt_float (VInt 1) 0.8 = inr true /\ gt_float (VInt 0) 0.8 = inr false.
Proof. split; reflexivity. Qed.

(** A confidence that is not a number stops the routing with [TypeError]. *)
Example text_confidence :
  decide_action Scenario.sample_alert
    (VDict (<["confidence" := VStr "high"]> (Scenario.insight 0.92)))
  = raise TypeError "'>' not supported between instances of 'str' and 'float'".
Proof. reflexivity. Qed.

(** C6.  On an error insight the decision is exactly the action [error]
    with the insight's message: it has no confidence field, and it is the
    same decision whether the insight has a confidence, and whatever that
    confidence is. *)
Theorem error_decision_ignores_confidence
    (alert : value) (ins : gmap string value) (m : value) :
  error_insight ins m ->
  exists d : gmap string value,
    decide_action alert (VDict ins) = inr (VDict d)
    /\ d = {[ "action" := VStr "error"; "message" := m ]}
    /\ d !! "confidence" = None
    /\ (forall c : value,
          decide_action alert (VDict (<["confidence" := c]> ins)) = inr (VDict d))
    /\ decide_action alert (VDict (delete "confidence" ins)) = inr (VDict d).
Proof.
  intros [Hs Hm]. eexists. split; [by apply decide_action_error |].
  split; [reflexivity |]. split; [reflexivity |]. split.
  - intros c. apply decide_action_error. split; by rewrite lookup_insert_ne.
  - apply decide_action_error. split; by rewrite lookup_delete_ne.
Qed.

Lemma error_decision_ignores_confidence_witness :
  exists d : gmap string value,
    decide_action Scenario.sample_alert (VDict Scenario.timeout_insight)
    = inr (VDict d)
    /\ d = {[ "action" := VStr "error";
              "message" := VStr "Request failed: timed out" ]}
    /\ d !! "confidence" = None
    /\ (forall c : value,
          decide_action Scenario.sample_alert
            (VDict (<["confidence" := c]> Scenario.timeout_insight))
          = inr (VDict d))
    /\ decide_action Scenario.sample_alert
         (VDict (delete "confidence" Scenario.timeout_insight))
       = inr (VDict d).
Proof.
  apply (error_decision_ignores_confidence Scenario.sample_alert
           Scenario.timeout_insight (VStr "Request failed: timed out")).
  split; reflexivity.
Defined.

(** ** The normaliser *)

Section Extract.

Variables (now : string) (d : gmap string value).

Lemma extract_insights_error (m : value) :
  d !! "error" = Some m ->
  extract_insights now (VDict d)
  = inr (VDict {[ "status" := VStr "error"; "message" := m ]}).
Proof.
  intros He. unfold extract_insights. simpl. rewrite He. reflexivity.
Qed.

Lemma extract_insights_success :
  d !! "error" = None ->
  extract_insights now (VDict d)
  = inr (VDict {[ "status" := VStr "success";
                 "timestamp" := VStr now;
                 "answer" := default (VStr "") (d !! "answer");
                 "confidence" := default (VFloat 0) (d !! "confidence");
                 "sources" := default (VList []) (d !! "sources");
                 "recommendations" := default (VList []) (d !! "recommendations") ]}).
Proof.
  intros He. unfold extract_insights. simpl. rewrite He. simpl.
  destruct (d !! "answer"), (d !! "confidence"), (d !! "sources"),
    (d !! "recommendations"); reflexivity.
Qed.


End Extract.

(** C2.  [extract_insights] returns an insight for every response
    mapping, and never raises.  When the response has an error the insight
    is the status [error] with the message copied and no other field;
    otherwise it is the status [success] with the answer, confidence,
    sources and recommendations of the response, an absent one replaced by
    the empty string, 0.0, the empty list and the empty list (and the
    time of the call as [timestamp]). *)
Theorem extract_insights_total (now : string) (d : gmap string value) :
  exists ins : gmap string value,
    extract_insights now (VDict d) = inr (VDict ins)
    /\ match d !! "error" with
       | Some m =>
           ins = {[ "status" := VStr "error"; "message" := m ]}
           /\ (forall k : string, k <> "status" -> k <> "message" -> ins !! k = None)
       | None =>
           ins !! "status" = Some (VStr "success")
           /\ ins !! "answer" = Some (default (VStr "") (d !! "answer"))
           /\ ins !! "confidence" = Some (default (VFloat 0) (d !! "confidence"))
           /\ ins !! "sources" = Some (default (VList []) (d !! "sources"))
           /\ ins !! "recommendations"
              = Some (default (VList []) (d !! "recommendations"))
           /\ ins !! "timestamp" = Some (VStr now)
           /\ ins !! "message" = None
       end.
Proof.
  destruct (d !! "error") as [m |] eqn:He.
  - eexists. split; [by apply extract_insights_error |]. split; [reflexivity |].
    intros k Hs Hm. rewrite lookup_insert_ne by done. by apply lookup_singleton_ne.
  - eexists. split; [by apply extract_insights_success |].
    repeat split; reflexivity.
Qed.

(** With every optional field absent the defaults are all there is. *)
Example extract_insights_empty :
  extract_insights "2026-01-01T09:00:00" (VDict ∅)
  = inr (VDict {[ "status" := VStr "success";
                 "timestamp" := VStr "2026-01-01T09:00:00";
                 "answer" := VStr "";
                 "confidence" := VFloat 0;
                 "sources" := VList [];
                 "recommendations" := VList [] ]}).
Proof. reflexivity. Qed.

(** Outside the mappings the function does raise: a JSON list for a body
    has no [.get]. *)
Example extract_insights_list :
  extract_insights "2026-01-01T09:00:00" (VList [])
  = raise AttributeError "'list' object has no attribute 'get'".
Proof. reflexivity. Qed.

(** C10.  A response that has an error gives the error insight with that
    message, whatever else the response holds: setting any other field of
    the response, a success field included, to any value leaves the
    insight as it is. *)
Theorem extract_insights_error_first (now : string) (d : gmap string value) (m : value) :
  d !! "error" = Some m ->
  extract_insights now (VDict d)
  = inr (VDict {[ "status" := VStr "error"; "message" := m ]})
  /\ (forall (k : string) (v : value),
        k <> "error" ->
        extract_insights now (VDict (<[k := v]> d))
        = inr (VDict {[ "status" := VStr "error"; "message" := m ]})).
Proof.
  intros He. split.
  - unfold extract_insights. simpl. by rewrite He.
  - intros k v Hk. unfold extract_insights. simpl.
    rewrite lookup_insert_ne by done. by rewrite He.
Qed.

Lemma extract_insights_error_first_witness :
  is_Some (Scenario.mixed_body !! "answer")
  /\ is_Some (Scenario.mixed_body !! "confidence")
  /\ is_Some (Scenario.mixed_body !! "sources")
  /\ is_Some (Scenario.mixed_body !! "recommendations")
  /\ extract_insights "2026-01-01T09:00:00" (VDict Scenario.mixed_body)
     = inr (VDict {[ "status" := VStr "error";
                    "message" := VStr "backend unavailable" ]}).
Proof.
  do 4 (split; [eexists; reflexivity |]).
  apply (proj1 (extract_insights_error_first "2026-01-01T09:00:00"
                  Scenario.mixed_body (VStr "backend unavailable") eq_refl)).
Defined.

(** C7, as the claim has it, fails: the same response read at two times
    gives two insights. *)
Lemma extract_insights_reads_clock :
  exists (response : value) (now1 now2 : string),
    extract_insights now1 response <> extract_insights now2 response.
Proof.
  exists (VDict ∅), "2026-01-01T09:00:00", "2026-01-01T09:00:01".
  intros H.
  apply (f_equal (fun r => match r with
                           | inr (VDict ins) => ins !! "timestamp"
                           | _ => None
                           end)) in H.
  vm_compute in H. discriminate H.
Qed.

(** C7, amended.  The insight is a function of the response and of the
    time of the call, and of the time only through [timestamp]: two calls
    on one response agree once that field is set aside, for every response
    whatsoever; on a response mapping with an error they agree outright;
    and on one without, [timestamp] is the time of the call. *)
Theorem extract_insights_deterministic_but_timestamp
    (now1 now2 : string) (response : value) (d : gmap string value) :
  without_timestamp (extract_insights now1 response)
  = without_timestamp (extract_insights now2 response)
  /\ match d !! "error" with
     | Some _ =>
         extract_insights now1 (VDict d) = extract_insights now2 (VDict d)
     | None =>
         exists ins : gmap string value,
           extract_insights now1 (VDict d) = inr (VDict ins)
           /\ ins !! "timestamp" = Some (VStr now1)
     end.
Proof.
  split.
  - destruct response as [ | b | z | f | s | l | d']; try reflexivity.
    destruct (d' !! "error") as [m |] eqn:He.
    + by rewrite !(extract_insights_error _ d' m He).
    + rewrite !(extract_insights_success _ d' He). reflexivity.
  - destruct (d !! "error") as [m |] eqn:He.
    + by rewrite !(extract_insights_error _ d m He).
    + eexists. split; [by apply extract_insights_success | reflexivity].
Qed.

(** ** The client boundary *)

Section ClientBoundary.

Variable post : LightspeedClient.transport.
Variables (self : LightspeedClient.t) (question : string) (context : value).

(** [query] is its [try] block run on the outcome of the one request. *)
Lemma query_unfold :
  LightspeedClient.query post self question context
  = try_except
      (response ← LightspeedClient.query_outcome post self question context;
       if LightspeedClient.status_code response =? 200 then
         LightspeedClient.json response
       else
         mret (LightspeedClient.error_response
                 ("HTTP " +:+ pretty (LightspeedClient.status_code response)
                  +:+ ": " +:+ LightspeedClient.text response)))
      [ (is_RequestException,
         fun e => mret (LightspeedClient.error_response
                          ("Request failed: " +:+ exc_str e)));
        (is_Exception,
         fun e => mret (LightspeedClient.error_response
                          ("Unexpected error: " +:+ exc_str e))) ].
Proof. reflexivity. Qed.






(** An interrupt is not caught: it is no [Exception]. *)
Lemma query_interrupted (e : exc) :
  LightspeedClient.query_outcome post self question context = inl e ->
  is_Exception (exc_type e) = false ->
  LightspeedClient.query post self question context = inl e.
Proof.
  intros Ho He. rewrite query_unfold, Ho. simpl.
  destruct (exc_type e); try discriminate He. reflexivity.
Qed.

End ClientBoundary.



(** A 503 answer, and a 200 answer whose body is not JSON. *)
Example query_unavailable :
  LightspeedClient.query (LightspeedClient.replies Scenario.unavailable)
    (LightspeedClient.init "http://ols-server:8000" 30) "What is the cluster health?"
    (VDict ∅)
  = inr (LightspeedClient.error_response "HTTP 503: Service Unavailable").
Proof. reflexivity. Qed.

Example query_unparsable :
  LightspeedClient.query
    (LightspeedClient.replies
       (inr (LightspeedClient.HttpResponse 200 "<html>"
               (raise JSONDecodeError "Expecting value: line 1 column 1 (char 0)"))))
    (LightspeedClient.init "http://ols-server:8000" 30) "What is the cluster health?"
    (VDict ∅)
  = inr (LightspeedClient.error_response
           "Request failed: Expecting value: line 1 column 1 (char 0)").
Proof. reflexivity. Qed.

(** A status in 2xx other than 200 is a failure as well. *)
Example query_no_content :
  LightspeedClient.query
    (LightspeedClient.replies (inr (LightspeedClient.HttpResponse 204 "" (inr VNone))))
    (LightspeedClient.init "http://ols-server:8000" 30) "What is the cluster health?"
    (VDict ∅)
  = inr (LightspeedClient.error_response "HTTP 204: ").
Proof. reflexivity. Qed.

(** ** The context of an alert *)

Section Context.

Variable repr : value -> string.

Lemma has_required_fields_inv (alert : value) :
  has_required_fields alert = true ->
  exists (al labels ann : gmap string value) (name : value),
    alert = VDict al
    /\ al !! "labels" = Some (VDict labels)
    /\ labels !! "alertname" = Some name
    /\ al !! "annotations" = Some (VDict ann).
Proof.
  destruct alert as [ | | | | | | al]; try discriminate. simpl.
  destruct (al !! "labels") as [[ | | | | | | labels] |] eqn:Hl; try discriminate.
  destruct (al !! "annotations") as [[ | | | | | | ann] |] eqn:Ha; try discriminate.
  destruct (labels !! "alertname") as [name |] eqn:Hn; try discriminate.
  intros _. by exists al, labels, ann, name.
Qed.

Lemma alertname_nested (alert name : value) :
  nested alert "labels" "alertname" = Some name -> alertname alert = inr name.
Proof.
  destruct alert as [ | | | | | | al]; try discriminate. unfold alertname. simpl.
  destruct (al !! "labels") as [[ | | | | | | labels] |]; try discriminate.
  simpl. by intros ->.
Qed.

(** With the required fields there, the context is built and every
    optional field that is absent takes its fallback. *)
Lemma build_context_required (alert name : value) :
  has_required_fields alert = true ->
  nested alert "labels" "alertname" = Some name ->
  build_context alert
  = inr (VDict
           {[ "alert_name" := name;
              "namespace" :=
                default (VStr "default") (nested alert "labels" "namespace");
              "severity" :=
                default (VStr "warning") (nested alert "labels" "severity");
              "description" :=
                default (VStr "") (nested alert "annotations" "description") ]}).
Proof.
  intros (al & labels & ann & name' & -> & Hl & Hn & Ha)%has_required_fields_inv.
  unfold build_context, alertname. simpl. rewrite Hl, Ha. simpl. rewrite Hn.
  intros [= ->]. simpl.
  destruct (labels !! "namespace"), (labels !! "severity"),
    (ann !! "description"); reflexivity.
Qed.

(** Without them, it raises. *)
Lemma build_context_rejects (alert : value) :
  has_required_fields alert = false -> exists e : exc, build_context alert = inl e.
Proof.
  unfold build_context, alertname.
  destruct alert as [ | | | | | | al]; simpl; eauto.
  destruct (al !! "labels") as [[ | | | | | | labels] |]; simpl; eauto.
  destruct (labels !! "alertname") as [name |]; simpl.
  - destruct (labels !! "namespace"), (labels !! "severity"); simpl;
      destruct (al !! "annotations") as [[ | | | | | | ann] |]; simpl; eauto;
      discriminate.
  - eauto.
Qed.


End Context.







(** The alert with a name only: every fallback at once. *)
Example build_query_bare :
  build_query Scenario.no_repr Scenario.bare_alert
  = inr ("Analyze this alert and suggest remediation: ",
         VDict {[ "alert_name" := VStr "HighPodCPU";
                  "namespace" := VStr "default";
                  "severity" := VStr "warning";
                  "description" := VStr "" ]}).
Proof. reflexivity. Qed.

(** Fields of the wrong type are taken as they are: a numeric namespace
    is copied, a numeric description is rendered into the question. *)
Example build_query_malformed :
  build_query Scenario.no_repr
    (VDict {[ "labels" := VDict {[ "alertname" := VStr "HighPodCPU";
                                   "namespace" := VInt 7 ]};
              "annotations" := VDict {[ "description" := VInt 85 ]} ]})
  = inr ("Analyze this alert and suggest remediation: 85",
         VDict {[ "alert_name" := VStr "HighPodCPU";
                  "namespace" := VInt 7;
                  "severity" := VStr "warning";
                  "description" := VInt 85 ]}).
Proof. reflexivity. Qed.

(** ** The pipeline *)

Section Pipeline.

Variable repr : value -> string.
Variable post : LightspeedClient.transport.

(** The fields of whatever the routing returns. *)
Lemma decide_action_fields (alert insights dec : value) :
  decide_action alert insights = inr dec ->
  exists d : gmap string value,
    dec = VDict d
    /\ ((d !! "action" = Some (VStr "auto_remediate")
         /\ (exists name : value,
               alertname alert = inr name /\ d !! "alert" = Some name)
         /\ is_Some (d !! "confidence"))
        \/ (d !! "action" = Some (VStr "escalate")
            /\ (exists name : value,
                  alertname alert = inr name /\ d !! "alert" = Some name)
            /\ is_Some (d !! "confidence"))
        \/ (d !! "action" = Some (VStr "error")
            /\ is_Some (d !! "message")
            /\ d !! "alert" = None
            /\ d !! "confidence" = None)).
Proof.
  unfold decide_action.
  destruct (getitem insights "status") as [e | st]; simpl; [discriminate |].
  destruct (eq_str st "error").
  - destruct (getitem insights "message") as [e | m]; simpl; [discriminate |].
    intros [= <-]. eexists. split; [reflexivity |]. right. right.
    repeat split; try reflexivity. by eexists.
  - destruct (getitem insights "confidence") as [e | cv]; simpl; [discriminate |].
    destruct (gt_float cv 0.8) as [e | [|]]; simpl; [discriminate | |].
    + destruct (alertname alert) as [e | name]; simpl; [discriminate |].
      destruct (getitem insights "recommendations") as [e | recs]; simpl;
        [discriminate |].
      destruct (getitem insights "answer") as [e | ans]; simpl; [discriminate |].
      intros [= <-]. eexists. split; [reflexivity |]. left.
      split; [reflexivity |]. split; [by exists name | by eexists].
    + destruct (alertname alert) as [e | name]; simpl; [discriminate |].
      intros [= <-]. eexists. split; [reflexivity |]. right. left.
      split; [reflexivity |]. split; [by exists name | by eexists].
Qed.

(** A decision of the pipeline is a decision of its last step. *)
Lemma handle_prometheus_alert_decides (now : string) (alert : value) (url : string)
    (dec : value) :
  handle_prometheus_alert repr post now alert url = inr dec ->
  exists insights : value, decide_action alert insights = inr dec.
Proof.
  unfold handle_prometheus_alert.
  destruct (build_context alert) as [e | context]; simpl; [discriminate |].
  destruct (build_question repr context) as [e | question]; simpl; [discriminate |].
  destruct (LightspeedClient.query post (LightspeedClient.init url 30) question context)
    as [e | analysis]; simpl; [discriminate |].
  destruct (extract_insights now analysis) as [e | insights]; simpl; [discriminate |].
  eauto.
Qed.

End Pipeline.


(** C8, as the claim has it, fails: when the request times out the
    decision is an Error and has no alert name. *)
Lemma error_decision_has_no_alert :
  exists d : gmap string value,
    handle_prometheus_alert Scenario.no_repr
      (LightspeedClient.replies Scenario.timed_out)
      "2026-01-01T09:00:00" Scenario.sample_alert "http://ols-server:8000"
    = inr (VDict d)
    /\ d !! "action" = Some (VStr "error")
    /\ d !! "alert" = None.
Proof. eexists. split; [reflexivity |]. split; reflexivity. Qed.

(** C8, amended.  Every decision of the pipeline takes one of the three
    actions.  An AutoRemediate and an Escalate decision carry the alert's
    name and a confidence; an Error decision carries its message and
    neither the alert's name nor a confidence. *)
Theorem decision_fields
    (repr : value -> string) (post : LightspeedClient.transport)
    (now : string) (alert : value) (url : string) (dec : value) :
  handle_prometheus_alert repr post now alert url = inr dec ->
  exists d : gmap string value,
    dec = VDict d
    /\ ((d !! "action" = Some (VStr "auto_remediate")
         /\ (exists name : value,
               alertname alert = inr name /\ d !! "alert" = Some name)
         /\ is_Some (d !! "confidence"))
        \/ (d !! "action" = Some (VStr "escalate")
            /\ (exists name : value,
                  alertname alert = inr name /\ d !! "alert" = Some name)
            /\ is_Some (d !! "confidence"))
        \/ (d !! "action" = Some (VStr "error")
            /\ is_Some (d !! "message")
            /\ d !! "alert" = None
            /\ d !! "confidence" = None)).
Proof.
  intros [insights Hd]%handle_prometheus_alert_decides.
  by apply (decide_action_fields alert insights).
Qed.

Lemma decision_fields_witness :
  handle_prometheus_alert Scenario.no_repr
    (LightspeedClient.replies (Scenario.ok (VDict (Scenario.body (VFloat 0.92)))))
    "2026-01-01T09:00:00" Scenario.sample_alert "http://ols-server:8000"
  = inr (VDict {[ "action" := VStr "auto_remediate";
                  "alert" := VStr "HighPodCPU";
                  "confidence" := VFloat 0.92;
                  "recommendations" := VList [];
                  "analysis" := VStr "Restart pod" ]})
  /\ exists d : gmap string value,
       VDict {[ "action" := VStr "auto_remediate";
                "alert" := VStr "HighPodCPU";
                "confidence" := VFloat 0.92;
                "recommendations" := VList [];
                "analysis" := VStr "Restart pod" ]}
       = VDict d
       /\ ((d !! "action" = Some (VStr "auto_remediate")
            /\ (exists name : value,
                  alertname Scenario.sample_alert = inr name
                  /\ d !! "alert" = Some name)
            /\ is_Some (d !! "confidence"))
           \/ (d !! "action" = Some (VStr "escalate")
               /\ (exists name : value,
                     alertname Scenario.sample_alert = inr name
                     /\ d !! "alert" = Some name)
               /\ is_Some (d !! "confidence"))
           \/ (d !! "action" = Some (VStr "error")
               /\ is_Some (d !! "message")
               /\ d !! "alert" = None
               /\ d !! "confidence" = None)).
Proof.
  split; [reflexivity |].
  apply (decision_fields Scenario.no_repr
           (LightspeedClient.replies (Scenario.ok (VDict (Scenario.body (VFloat 0.92)))))
           "2026-01-01T09:00:00" Scenario.sample_alert "http://ols-server:8000").
  reflexivity.
Defined.




(** Scenario D: a timeout ends in the Error decision with the message of
    the client. *)
Example scenario_d :
  handle_prometheus_alert Scenario.no_repr
    (LightspeedClient.replies Scenario.timed_out)
    "2026-01-01T09:00:00" Scenario.sample_alert "http://ols-server:8000"
  = inr (VDict {[ "action" := VStr "error";
                  "message" :=
                    VStr "Request failed: Read timed out. (read timeout=30)" ]}).
Proof. reflexivity. Qed.

(** The sibling call has the same boundary. *)
Example get_recommendations_refused :
  LightspeedClient.get_recommendations
    (LightspeedClient.replies (raise ConnectionError "Connection refused"))
    (LightspeedClient.init "http://ols-server:8000" 30) "high_resource_usage"
    (VDict {[ "pod_name" := VStr "coordination-engine-0" ]})
  = inr (LightspeedClient.error_response "Request failed: Connection refused").
Proof. reflexivity. Qed.

(** * Further properties *)

(** ** The client's constructor *)

Section Constructor.

Lemma rstrip_slashes (n : nat) : rstrip Wire.slash (Wire.slashes n) = EmptyString.
Proof.
  induction n as [| n IH]; [reflexivity |]. simpl. rewrite IH. reflexivity.
Qed.

Lemma rstrip_app_slashes (s : string) (n : nat) :
  rstrip Wire.slash (s +:+ Wire.slashes n) = rstrip Wire.slash s.
Proof.
  induction s as [| a s IH]; simpl.
  - apply rstrip_slashes.
  - by rewrite IH.
Qed.

Lemma rstrip_ends (c : Ascii.ascii) (s : string) : Wire.ends_with c (rstrip c s) = false.
Proof.
  induction s as [| a s IH]; [reflexivity |]. simpl.
  destruct (rstrip c s) as [| b r] eqn:Hr.
  - destruct (Ascii.eqb a c) eqn:Ha; [reflexivity |]. simpl. exact Ha.
  - exact IH.
Qed.

Lemma rstrip_rest (s : string) :
  exists n : nat, s = rstrip Wire.slash s +:+ Wire.slashes n.
Proof.
  induction s as [| a s [n IH]]; [by exists O |]. simpl.
  destruct (rstrip Wire.slash s) as [| b r] eqn:Hr.
  - destruct (Ascii.eqb_spec a Wire.slash) as [-> | Hne].
    + exists (S n). simpl. by rewrite IH at 1.
    + exists n. simpl. by rewrite IH at 1.
  - exists n. simpl. by rewrite IH at 1.
Qed.

End Constructor.

(** X1.  The URL a client keeps never ends in a slash, and it is the URL
    given less its trailing slashes; the timeout is kept as given. *)
Theorem init_strips_trailing_slashes (url : string) (seconds : Z) :
  Wire.ends_with Wire.slash (LightspeedClient.server_url (LightspeedClient.init url seconds))
  = false
  /\ (exists n : nat,
        url = LightspeedClient.server_url (LightspeedClient.init url seconds)
              +:+ Wire.slashes n)
  /\ LightspeedClient.timeout (LightspeedClient.init url seconds) = seconds.
Proof.
  split; [apply rstrip_ends |]. split; [apply rstrip_rest | reflexivity].
Qed.

(** X2.  Trailing slashes on the server URL change no request: the two
    clients are the same, and so is every [query] and
    [get_recommendations] made through them. *)
Theorem trailing_slashes_are_immaterial
    (post : LightspeedClient.transport) (url : string) (n : nat) (seconds : Z)
    (text : string) (context : value) :
  LightspeedClient.init (url +:+ Wire.slashes n) seconds
  = LightspeedClient.init url seconds
  /\ LightspeedClient.query post
       (LightspeedClient.init (url +:+ Wire.slashes n) seconds) text context
     = LightspeedClient.query post (LightspeedClient.init url seconds) text context
  /\ LightspeedClient.get_recommendations post
       (LightspeedClient.init (url +:+ Wire.slashes n) seconds) text context
     = LightspeedClient.get_recommendations post
         (LightspeedClient.init url seconds) text context.
Proof.
  assert (H : LightspeedClient.init (url +:+ Wire.slashes n) seconds
              = LightspeedClient.init url seconds).
  { unfold LightspeedClient.init. f_equal. apply rstrip_app_slashes. }
  by rewrite H.
Qed.

(** Slashes inside the URL stay. *)
Example init_keeps_inner_slashes :
  LightspeedClient.server_url (LightspeedClient.init "http://ols-server:8000/api//" 30)
  = "http://ols-server:8000/api".
Proof. reflexivity. Qed.

(** ** The two calls of the client *)

Section Recommendations.

Variable post : LightspeedClient.transport.
Variables (self : LightspeedClient.t) (issue_type : string) (context : value).

Lemma get_recommendations_unfold :
  LightspeedClient.get_recommendations post self issue_type context
  = try_except
      (response ← Wire.recommendations_outcome post self issue_type context;
       if LightspeedClient.status_code response =? 200 then
         LightspeedClient.json response
       else
         mret (LightspeedClient.error_response
                 ("HTTP " +:+ pretty (LightspeedClient.status_code response)
                  +:+ ": " +:+ LightspeedClient.text response)))
      [ (is_RequestException,
         fun e => mret (LightspeedClient.error_response
                          ("Request failed: " +:+ exc_str e)));
        (is_Exception,
         fun e => mret (LightspeedClient.error_response
                          ("Unexpected error: " +:+ exc_str e))) ].
Proof. reflexivity. Qed.

(** What [get_recommendations] returns, outcome by outcome. *)
Lemma get_recommendations_cases :
  LightspeedClient.get_recommendations post self issue_type context
  = match Wire.recommendations_outcome post self issue_type context with
    | inl e =>
        if is_Exception (exc_type e)
        then inr (LightspeedClient.error_response (LightspeedClient.caught_message e))
        else inl e
    | inr r =>
        if LightspeedClient.status_code r =? 200 then
          match LightspeedClient.json r with
          | inl e =>
              if is_Exception (exc_type e)
              then inr (LightspeedClient.error_response
                          (LightspeedClient.caught_message e))
              else inl e
          | inr v => inr v
          end
        else
          inr (LightspeedClient.error_response
                 ("HTTP " +:+ pretty (LightspeedClient.status_code r) +:+ ": "
                  +:+ LightspeedClient.text r))
    end.
Proof.
  rewrite get_recommendations_unfold.
  destruct (Wire.recommendations_outcome post self issue_type context) as [e | r];
    simpl.
  - unfold LightspeedClient.caught_message.
    destruct e as [[] msg]; reflexivity.
  - destruct (LightspeedClient.status_code r =? 200); [| reflexivity].
    destruct (LightspeedClient.json r) as [e | v]; [| reflexivity].
    unfold LightspeedClient.caught_message. destruct e as [[] msg]; reflexivity.
Qed.

End Recommendations.

(** The same reading of [query]. *)
Lemma query_cases
    (post : LightspeedClient.transport) (self : LightspeedClient.t)
    (question : string) (context : value) :
  LightspeedClient.query post self question context
  = match LightspeedClient.query_outcome post self question context with
    | inl e =>
        if is_Exception (exc_type e)
        then inr (LightspeedClient.error_response (LightspeedClient.caught_message e))
        else inl e
    | inr r =>
        if LightspeedClient.status_code r =? 200 then
          match LightspeedClient.json r with
          | inl e =>
              if is_Exception (exc_type e)
              then inr (LightspeedClient.error_response
                          (LightspeedClient.caught_message e))
              else inl e
          | inr v => inr v
          end
        else
          inr (LightspeedClient.error_response
                 ("HTTP " +:+ pretty (LightspeedClient.status_code r) +:+ ": "
                  +:+ LightspeedClient.text r))
    end.
Proof.
  rewrite query_unfold.
  destruct (LightspeedClient.query_outcome post self question context) as [e | r];
    simpl.
  - unfold LightspeedClient.caught_message.
    destruct e as [[] msg]; reflexivity.
  - destruct (LightspeedClient.status_code r =? 200); [| reflexivity].
    destruct (LightspeedClient.json r) as [e | v]; [| reflexivity].
    unfold LightspeedClient.caught_message. destruct e as [[] msg]; reflexivity.
Qed.



(** X4.  [query] sends an empty context for every context that is false
    in Python ([None], [{}], [''], [0], [[]]): all of them make the same
    request. *)
Theorem query_falsy_context
    (post : LightspeedClient.transport) (self : LightspeedClient.t)
    (question : string) (context : value) :
  truthy context = false ->
  LightspeedClient.query_outcome post self question context
  = post (LightspeedClient.server_url self +:+ "/query")
      (VDict {[ "question" := VStr question; "context" := VDict ∅ ]})
      (LightspeedClient.timeout self)
  /\ LightspeedClient.query post self question context
     = LightspeedClient.query post self question (VDict ∅).
Proof.
  intros Hf.
  assert (Ho : LightspeedClient.query_outcome post self question context
               = LightspeedClient.query_outcome post self question (VDict ∅)).
  { unfold LightspeedClient.query_outcome, or_else. by rewrite Hf. }
  split; [exact Ho |]. by rewrite !query_cases, Ho.
Qed.

Lemma query_falsy_context_witness :
  truthy VNone = false
  /\ LightspeedClient.query (LightspeedClient.replies Scenario.timed_out)
       (LightspeedClient.init "http://ols-server:8000" 30) "Hello" VNone
     = LightspeedClient.query (LightspeedClient.replies Scenario.timed_out)
         (LightspeedClient.init "http://ols-server:8000" 30) "Hello" (VDict ∅).
Proof.
  split; [reflexivity |].
  exact (proj2 (query_falsy_context (LightspeedClient.replies Scenario.timed_out)
                  (LightspeedClient.init "http://ols-server:8000" 30) "Hello" VNone
                  eq_refl)).
Defined.



(** ** The pipeline, end to end *)

Section EndToEnd.

Variable repr : value -> string.

Lemma alert_name_required (alert : value) :
  has_required_fields alert = true ->
  nested alert "labels" "alertname" = Some (Decision.alert_name alert).
Proof.
  intros (al & labels & ann & name & -> & Hl & Hn & Ha)%has_required_fields_inv.
  unfold Decision.alert_name. simpl. rewrite Hl, Hn. reflexivity.
Qed.

(** With the required fields there, the pipeline is the query of the
    alert's question and context, followed by the two pure steps. *)
Lemma handle_prometheus_alert_required
    (post : LightspeedClient.transport) (now : string) (alert : value) (url : string) :
  has_required_fields alert = true ->
  handle_prometheus_alert repr post now alert url
  = (analysis ← LightspeedClient.query post (LightspeedClient.init url 30)
                  (Decision.alert_question repr alert)
                  (VDict (Decision.alert_context alert));
     insights ← extract_insights now analysis;
     decide_action alert insights).
Proof.
  intros Hr. unfold handle_prometheus_alert.
  by rewrite (build_context_required alert _ Hr (alert_name_required alert Hr)).
Qed.

Lemma handle_prometheus_alert_rejected (now : string) (alert : value) (url : string) :
  has_required_fields alert = false ->
  exists e : exc,
    build_context alert = inl e
    /\ forall post : LightspeedClient.transport,
         handle_prometheus_alert repr post now alert url = inl e.
Proof.
  intros [e He]%build_context_rejects. exists e. split; [exact He |].
  intros post. unfold handle_prometheus_alert. by rewrite He.
Qed.

(** A confidence that [>] refuses stops the routing. *)
Lemma decide_action_refused (alert : value) (ins : gmap string value)
    (st cv : value) (e : exc) :
  ins !! "status" = Some st -> eq_str st "error" = false ->
  ins !! "confidence" = Some cv -> gt_float cv 0.8 = inl e ->
  decide_action alert (VDict ins) = inl e.
Proof.
  intros Hs He Hc Hg. unfold decide_action. simpl.
  rewrite Hs. simpl. rewrite He, Hc. simpl. by rewrite Hg.
Qed.

(** The routing of an error insight made from a body with an error. *)
Lemma decide_extracted_error (now : string) (alert : value) (d : gmap string value)
    (m : value) :
  d !! "error" = Some m ->
  (insights ← extract_insights now (VDict d); decide_action alert insights)
  = inr (Decision.error m).
Proof.
  intros He. rewrite (extract_insights_error now d m He). simpl.
  by apply decide_action_error.
Qed.

(** The routing of the success insight of a body, by what the comparison
    does with its confidence. *)
Lemma decide_extracted_success (now : string) (alert : value) (d : gmap string value) :
  has_required_fields alert = true ->
  d !! "error" = None ->
  (insights ← extract_insights now (VDict d); decide_action alert insights)
  = match gt_float (default (VFloat 0) (d !! "confidence")) 0.8 with
    | inl e => inl e
    | inr true => inr (Decision.auto_remediate (Decision.alert_name alert) d)
    | inr false => inr (Decision.escalate (Decision.alert_name alert) now d)
    end.
Proof.
  intros Hr He. rewrite (extract_insights_success now d He). simpl.
  pose proof (alertname_nested alert _ (alert_name_required alert Hr)) as Hn.
  destruct (gt_float (default (VFloat 0) (d !! "confidence")) 0.8)
    as [e | [|]] eqn:Hg.
  - by eapply decide_action_refused.
  - by eapply decide_action_high.
  - by eapply decide_action_low.
Qed.

End EndToEnd.

(** What the pipeline does with each outcome of its request. *)
Lemma handle_prometheus_alert_cases
    (repr : value -> string) (now : string) (alert : value) (url : string)
    (outcome : result LightspeedClient.http_response) :
  has_required_fields alert = true ->
  handle_prometheus_alert repr (LightspeedClient.replies outcome) now alert url
  = match Wire.failure_message outcome with
    | Some msg => inr (Decision.error (VStr msg))
    | None =>
        match outcome with
        | inl e => inl e
        | inr r =>
            match LightspeedClient.json r with
            | inl e => inl e
            | inr analysis =>
                insights ← extract_insights now analysis;
                decide_action alert insights
            end
        end
    end.
Proof.
  intros Hr. rewrite (handle_prometheus_alert_required repr _ now alert url Hr).
  rewrite query_cases. unfold LightspeedClient.query_outcome, LightspeedClient.replies.
  unfold Wire.failure_message.
  destruct outcome as [e | r].
  - destruct (is_Exception (exc_type e)); [| reflexivity].
    simpl. by apply decide_extracted_error.
  - destruct (LightspeedClient.status_code r =? 200).
    + destruct (LightspeedClient.json r) as [e | analysis]; [| reflexivity].
      destruct (is_Exception (exc_type e)); [| reflexivity].
      simpl. by apply decide_extracted_error.
    + simpl. by apply decide_extracted_error.
Qed.

Lemma handle_prometheus_alert_body
    (repr : value -> string) (now : string) (alert : value) (url text : string)
    (analysis : value) :
  has_required_fields alert = true ->
  handle_prometheus_alert repr
    (LightspeedClient.replies
       (inr (LightspeedClient.HttpResponse 200 text (inr analysis))))
    now alert url
  = (insights ← extract_insights now analysis; decide_action alert insights).
Proof.
  intros Hr. by rewrite (handle_prometheus_alert_cases repr now alert url _ Hr).
Qed.

(** X6.  Every failure the client catches ends in the Error decision that
    carries the client's message: a request that raises, a status other
    than 200, a body that does not parse. *)
Theorem failure_becomes_error_decision
    (repr : value -> string) (now : string) (alert : value) (url : string)
    (outcome : result LightspeedClient.http_response) (msg : string) :
  has_required_fields alert = true ->
  Wire.failure_message outcome = Some msg ->
  handle_prometheus_alert repr (LightspeedClient.replies outcome) now alert url
  = inr (Decision.error (VStr msg)).
Proof.
  intros Hr Hm. rewrite (handle_prometheus_alert_cases repr now alert url _ Hr).
  by rewrite Hm.
Qed.

Lemma failure_becomes_error_decision_witness :
  handle_prometheus_alert Scenario.no_repr
    (LightspeedClient.replies Scenario.unavailable)
    "2026-01-01T09:00:00" Scenario.sample_alert "http://ols-server:8000"
  = inr (Decision.error (VStr "HTTP 503: Service Unavailable")).
Proof.
  exact (failure_becomes_error_decision Scenario.no_repr "2026-01-01T09:00:00"
           Scenario.sample_alert "http://ols-server:8000" Scenario.unavailable
           "HTTP 503: Service Unavailable" eq_refl eq_refl).
Defined.

(** X7.  A 200 body that has an [error] ends in the Error decision with
    that error as its message, whatever the error is and whatever
    confidence the body claims. *)
Theorem reported_error_becomes_error_decision
    (repr : value -> string) (now : string) (alert : value) (url text : string)
    (d : gmap string value) (m : value) :
  has_required_fields alert = true ->
  d !! "error" = Some m ->
  handle_prometheus_alert repr
    (LightspeedClient.replies
       (inr (LightspeedClient.HttpResponse 200 text (inr (VDict d)))))
    now alert url
  = inr (Decision.error m).
Proof.
  intros Hr He. rewrite (handle_prometheus_alert_body repr now alert url text _ Hr).
  by apply decide_extracted_error.
Qed.

Lemma reported_error_becomes_error_decision_witness :
  handle_prometheus_alert Scenario.no_repr
    (LightspeedClient.replies (Scenario.ok (VDict Scenario.mixed_body)))
    "2026-01-01T09:00:00" Scenario.sample_alert "http://ols-server:8000"
  = inr (Decision.error (VStr "backend unavailable")).
Proof.
  exact (reported_error_becomes_error_decision Scenario.no_repr "2026-01-01T09:00:00"
           Scenario.sample_alert "http://ols-server:8000" "" Scenario.mixed_body
           (VStr "backend unavailable") eq_refl eq_refl).
Defined.

(** X8.  An answer is passed on whole.  With a float confidence [c] the
    decision above 0.8 carries the alert's name, the confidence, the
    recommendations and the answer of the body as they came; the decision
    at or below carries the alert's name, the confidence and the entire
    insight (timestamp and sources included) with the reason. *)
Theorem answer_becomes_decision
    (repr : value -> string) (now : string) (alert : value) (url text : string)
    (d : gmap string value) (c : float) :
  has_required_fields alert = true ->
  d !! "error" = None ->
  d !! "confidence" = Some (VFloat c) ->
  handle_prometheus_alert repr
    (LightspeedClient.replies
       (inr (LightspeedClient.HttpResponse 200 text (inr (VDict d)))))
    now alert url
  = inr (if (0.8 <? c)%float
         then Decision.auto_remediate (Decision.alert_name alert) d
         else Decision.escalate (Decision.alert_name alert) now d).
Proof.
  intros Hr He Hc. rewrite (handle_prometheus_alert_body repr now alert url text _ Hr).
  rewrite (decide_extracted_success now alert d Hr He), Hc. simpl.
  by destruct (0.8 <? c)%float.
Qed.

Lemma answer_becomes_decision_witness :
  handle_prometheus_alert Scenario.no_repr
    (LightspeedClient.replies (Scenario.ok (VDict (Scenario.body (VFloat 0.45)))))
    "2026-01-01T09:00:00" Scenario.sample_alert "http://ols-server:8000"
  = inr (VDict
           {[ "action" := VStr "escalate";
              "alert" := VStr "HighPodCPU";
              "confidence" := VFloat 0.45;
              "analysis" :=
                VDict {[ "status" := VStr "success";
                         "timestamp" := VStr "2026-01-01T09:00:00";
                         "answer" := VStr "Restart pod";
                         "confidence" := VFloat 0.45;
                         "sources" := VList [];
                         "recommendations" := VList [] ]};
              "reason" := VStr "Low confidence in automated remediation" ]}).
Proof.
  exact (answer_becomes_decision Scenario.no_repr "2026-01-01T09:00:00"
           Scenario.sample_alert "http://ols-server:8000" ""
           (Scenario.body (VFloat 0.45)) 0.45%float eq_refl eq_refl eq_refl).
Defined.

(** X9.  A body without a confidence is escalated, with the confidence
    0.0 in the decision and in the insight it carries. *)
Theorem missing_confidence_escalates
    (repr : value -> string) (now : string) (alert : value) (url text : string)
    (d : gmap string value) :
  has_required_fields alert = true ->
  d !! "error" = None ->
  d !! "confidence" = None ->
  exists dec : gmap string value,
    handle_prometheus_alert repr
      (LightspeedClient.replies
         (inr (LightspeedClient.HttpResponse 200 text (inr (VDict d)))))
      now alert url
    = inr (VDict dec)
    /\ dec !! "action" = Some (VStr "escalate")
    /\ dec !! "confidence" = Some (VFloat 0)
    /\ dec !! "analysis" = Some (VDict (Decision.insight_of now d))
    /\ Decision.insight_of now d !! "confidence" = Some (VFloat 0).
Proof.
  intros Hr He Hc. rewrite (handle_prometheus_alert_body repr now alert url text _ Hr).
  rewrite (decide_extracted_success now alert d Hr He).
  replace (gt_float (default (VFloat 0) (d !! "confidence")) 0.8)
    with (inr false : result bool) by (by rewrite Hc).
  eexists. split; [reflexivity |].
  unfold Decision.insight_of. rewrite Hc. by repeat split.
Qed.

Lemma missing_confidence_escalates_witness :
  exists dec : gmap string value,
    handle_prometheus_alert Scenario.no_repr
      (LightspeedClient.replies (Scenario.ok (VDict ∅)))
      "2026-01-01T09:00:00" Scenario.sample_alert "http://ols-server:8000"
    = inr (VDict dec)
    /\ dec !! "action" = Some (VStr "escalate")
    /\ dec !! "confidence" = Some (VFloat 0)
    /\ dec !! "analysis" = Some (VDict (Decision.insight_of "2026-01-01T09:00:00" ∅))
    /\ Decision.insight_of "2026-01-01T09:00:00" ∅ !! "confidence" = Some (VFloat 0).
Proof.
  exact (missing_confidence_escalates Scenario.no_repr "2026-01-01T09:00:00"
           Scenario.sample_alert "http://ols-server:8000" "" ∅
           eq_refl eq_refl eq_refl).
Defined.

(** ** Confidences that are not floats between 0 and 1 *)



(** X10.  A confidence that is not a number ([null], a string, a list,
    an object) makes the pipeline raise [TypeError]: no decision comes
    back, not even an Error one. *)
Theorem non_numeric_confidence_raises
    (repr : value -> string) (now : string) (alert : value) (url text : string)
    (d : gmap string value) (v : value) :
  has_required_fields alert = true ->
  d !! "error" = None ->
  d !! "confidence" = Some v ->
  Decision.numeric v = false ->
  exists msg : string,
    handle_prometheus_alert repr
      (LightspeedClient.replies
         (inr (LightspeedClient.HttpResponse 200 text (inr (VDict d)))))
      now alert url
    = raise TypeError msg.
Proof.
  intros Hr He Hc Hn. rewrite (handle_prometheus_alert_body repr now alert url text _ Hr).
  rewrite (decide_extracted_success now alert d Hr He), Hc. simpl.
  destruct v; try discriminate Hn; simpl; eauto.
Qed.

Lemma non_numeric_confidence_raises_witness :
  exists msg : string,
    handle_prometheus_alert Scenario.no_repr
      (LightspeedClient.replies (Scenario.ok (VDict (Scenario.body VNone))))
      "2026-01-01T09:00:00" Scenario.sample_alert "http://ols-server:8000"
    = raise TypeError msg.
Proof.
  exact (non_numeric_confidence_raises Scenario.no_repr "2026-01-01T09:00:00"
           Scenario.sample_alert "http://ols-server:8000" ""
           (Scenario.body VNone) VNone eq_refl eq_refl eq_refl eq_refl).
Defined.

(** X11.  An integer confidence is remediated exactly when it is at least
    1, and a boolean one exactly when it is [true]: both are compared with
    0.8 by their exact value. *)
Theorem integer_confidence_routing
    (repr : value -> string) (now : string) (alert : value) (url text : string)
    (d : gmap string value) :
  has_required_fields alert = true ->
  d !! "error" = None ->
  (forall z : Z,
     d !! "confidence" = Some (VInt z) ->
     action (handle_prometheus_alert repr
               (LightspeedClient.replies
                  (inr (LightspeedClient.HttpResponse 200 text (inr (VDict d)))))
               now alert url)
     = Some (if 1 <=? z then "auto_remediate" else "escalate"))
  /\ (forall b : bool,
        d !! "confidence" = Some (VBool b) ->
        action (handle_prometheus_alert repr
                  (LightspeedClient.replies
                     (inr (LightspeedClient.HttpResponse 200 text (inr (VDict d)))))
                  now alert url)
        = Some (if b then "auto_remediate" else "escalate")).
Proof.
  intros Hr He. rewrite (handle_prometheus_alert_body repr now alert url text _ Hr).
  rewrite (decide_extracted_success now alert d Hr He). split.
  - intros z ->. simpl. rewrite float_lt_int_threshold. by destruct (1 <=? z).
  - intros b ->. simpl. rewrite float_lt_int_threshold. by destruct b.
Qed.

Lemma integer_confidence_routing_witness :
  action (handle_prometheus_alert Scenario.no_repr
            (LightspeedClient.replies (Scenario.ok (VDict (Scenario.body (VInt 1)))))
            "2026-01-01T09:00:00" Scenario.sample_alert "http://ols-server:8000")
  = Some "auto_remediate".
Proof.
  exact (proj1 (integer_confidence_routing Scenario.no_repr "2026-01-01T09:00:00"
                  Scenario.sample_alert "http://ols-server:8000" ""
                  (Scenario.body (VInt 1)) eq_refl eq_refl) 1 eq_refl).
Defined.

(** X12.  A NaN confidence, which [json] does parse, is escalated: it is
    not above 0.8, though it is not at or below it either. *)
Theorem nan_confidence_escalates
    (repr : value -> string) (now : string) (alert : value) (url text : string)
    (d : gmap string value) (c : float) :
  has_required_fields alert = true ->
  d !! "error" = None ->
  d !! "confidence" = Some (VFloat c) ->
  is_nan c = true ->
  handle_prometheus_alert repr
    (LightspeedClient.replies
       (inr (LightspeedClient.HttpResponse 200 text (inr (VDict d)))))
    now alert url
  = inr (Decision.escalate (Decision.alert_name alert) now d)
  /\ (c <=? 0.8)%float = false.
Proof.
  intros Hr He Hc Hnan. split.
  - rewrite (handle_prometheus_alert_body repr now alert url text _ Hr).
    rewrite (decide_extracted_success now alert d Hr He), Hc. simpl.
    by rewrite (ltb_nan 0.8 c Hnan).
  - rewrite leb_spec, (is_nan_true c Hnan). reflexivity.
Qed.

Lemma nan_confidence_escalates_witness :
  handle_prometheus_alert Scenario.no_repr
    (LightspeedClient.replies (Scenario.ok (VDict (Scenario.body (VFloat nan)))))
    "2026-01-01T09:00:00" Scenario.sample_alert "http://ols-server:8000"
  = inr (Decision.escalate (Decision.alert_name Scenario.sample_alert)
           "2026-01-01T09:00:00" (Scenario.body (VFloat nan)))
  /\ (nan <=? 0.8)%float = false.
Proof.
  exact (nan_confidence_escalates Scenario.no_repr "2026-01-01T09:00:00"
           Scenario.sample_alert "http://ols-server:8000" ""
           (Scenario.body (VFloat nan)) nan eq_refl eq_refl eq_refl eq_refl).
Defined.

(** ** When the pipeline returns *)

Section Returning.

Variable now : string.

(** Anything but a mapping makes [extract_insights] raise. *)
Lemma extract_insights_not_mapping (response : value) :
  match response with
  | VDict _ => True
  | _ => exists e : exc,
           extract_insights now response = inl e
           /\ (exc_type e = TypeError \/ exc_type e = AttributeError)
  end.
Proof.
  destruct response as [ | b | z | f | s | l | d]; try exact I;
    unfold extract_insights; simpl; eauto.
  - destruct (is_substring "error" s); simpl; eauto.
  - destruct (existsb (fun v : value => eq_str v "error") l); simpl; eauto.
Qed.

Lemma decide_extracted_returns (alert : value) (d : gmap string value) :
  has_required_fields alert = true ->
  Wire.is_returned
    (insights ← extract_insights now (VDict d); decide_action alert insights)
  = match d !! "error", d !! "confidence" with
    | Some _, _ => true
    | None, None => true
    | None, Some c => Decision.numeric c
    end.
Proof.
  intros Hr. destruct (d !! "error") as [m |] eqn:He.
  - by rewrite (decide_extracted_error now alert d m He).
  - rewrite (decide_extracted_success now alert d Hr He).
    destruct (d !! "confidence") as [[ | b | z | f | s | l | d'] |]; simpl;
      try reflexivity.
    + by destruct (float_lt_int 0.8 (if b then 1 else 0)).
    + by destruct (float_lt_int 0.8 z).
    + by destruct (0.8 <? f)%float.
Qed.

End Returning.

(** X13.  The pipeline returns a decision exactly when the alert has its
    required fields and the request ends in a failure the client catches
    or in a 200 whose body is a mapping with an error, with no confidence,
    or with a confidence that is a number; in every other case it raises. *)
Theorem pipeline_returns_iff
    (repr : value -> string) (now : string) (alert : value) (url : string)
    (outcome : result LightspeedClient.http_response) :
  Wire.is_returned
    (handle_prometheus_alert repr (LightspeedClient.replies outcome) now alert url)
  = has_required_fields alert && Decision.answerable outcome.
Proof.
  destruct (has_required_fields alert) eqn:Hr.
  - rewrite (handle_prometheus_alert_cases repr now alert url outcome Hr).
    unfold Wire.failure_message, Decision.answerable. simpl.
    destruct outcome as [e | r].
    + by destruct (is_Exception (exc_type e)).
    + destruct (LightspeedClient.status_code r =? 200); [| reflexivity].
      destruct (LightspeedClient.json r) as [e | analysis].
      * by destruct (is_Exception (exc_type e)).
      * pose proof (extract_insights_not_mapping now analysis) as Hx.
        destruct analysis as [ | b | z | f | s | l | d];
          try (destruct Hx as (e & -> & _); reflexivity).
        by apply decide_extracted_returns.
  - destruct (handle_prometheus_alert_rejected repr now alert url Hr) as (e & _ & He).
    by rewrite He.
Qed.

(** A JSON list for a body, and a body whose confidence is a string. *)
Example pipeline_raises_on_list :
  handle_prometheus_alert Scenario.no_repr
    (LightspeedClient.replies (Scenario.ok (VList [])))
    "2026-01-01T09:00:00" Scenario.sample_alert "http://ols-server:8000"
  = raise AttributeError "'list' object has no attribute 'get'".
Proof. reflexivity. Qed.

(** X14.  The pipeline looks at the network through one request only: a
    POST to the server URL, less its trailing slashes, followed by
    [/query], carrying the question and the context of the alert, with a
    timeout of 30.  Two networks that answer this request alike give the
    same result. *)
Theorem pipeline_makes_one_request
    (repr : value -> string) (post : LightspeedClient.transport)
    (now : string) (alert : value) (url : string) :
  handle_prometheus_alert repr post now alert url
  = handle_prometheus_alert repr
      (LightspeedClient.replies
         (post (rstrip Wire.slash url +:+ "/query")
            (VDict {[ "question" := VStr (Decision.alert_question repr alert);
                      "context" := VDict (Decision.alert_context alert) ]})
            30))
      now alert url.
Proof.
  destruct (has_required_fields alert) eqn:Hr.
  - rewrite !(handle_prometheus_alert_required repr _ now alert url Hr).
    rewrite !query_cases.
    assert (Ht : or_else (VDict (Decision.alert_context alert)) (VDict ∅)
                 = VDict (Decision.alert_context alert)).
    { unfold or_else. simpl. case_bool_decide as Hd; [| reflexivity].
      apply (f_equal (fun m : gmap string value => m !! "alert_name")) in Hd.
      discriminate Hd. }
    unfold LightspeedClient.query_outcome, LightspeedClient.replies.
    rewrite Ht. reflexivity.
  - destruct (handle_prometheus_alert_rejected repr now alert url Hr) as (e & _ & He).
    by rewrite !He.
Qed.

(** X15.  An alert without its required fields is rejected before the
    network is asked anything: the pipeline raises [KeyError], [TypeError]
    or [AttributeError], the same one whatever the network would do. *)
Theorem alert_rejected_before_request
    (repr : value -> string) (now : string) (alert : value) (url : string) :
  has_required_fields alert = false ->
  exists e : exc,
    (exc_type e = KeyError \/ exc_type e = TypeError \/ exc_type e = AttributeError)
    /\ forall post : LightspeedClient.transport,
         handle_prometheus_alert repr post now alert url = inl e.
Proof.
  intros Hr.
  destruct (handle_prometheus_alert_rejected repr now alert url Hr) as (e & Hb & He).
  exists e. split; [| exact He]. clear He. revert Hr Hb.
  unfold build_context, alertname.
  destruct alert as [ | | | | | | al]; simpl; try (intros _ [= <-]; simpl; tauto).
  destruct (al !! "labels") as [[ | | | | | | labels] |]; simpl;
    try (intros _ [= <-]; simpl; tauto).
  destruct (labels !! "alertname") as [name |]; simpl;
    [| intros _ [= <-]; simpl; tauto].
  destruct (labels !! "namespace"), (labels !! "severity"); simpl;
    destruct (al !! "annotations") as [[ | | | | | | ann] |]; simpl;
    try discriminate; intros _ [= <-]; simpl; tauto.
Qed.

Lemma alert_rejected_before_request_witness :
  exists e : exc,
    (exc_type e = KeyError \/ exc_type e = TypeError \/ exc_type e = AttributeError)
    /\ forall post : LightspeedClient.transport,
         handle_prometheus_alert Scenario.no_repr post "2026-01-01T09:00:00"
           Scenario.alert_without_name "http://ols-server:8000"
         = inl e.
Proof.
  exact (alert_rejected_before_request Scenario.no_repr "2026-01-01T09:00:00"
           Scenario.alert_without_name "http://ols-server:8000" eq_refl).
Defined.

(** ** The capacity report *)

(** [.get] on a mapping. *)
Lemma dict_get_mapping (d : gmap string value) (k : string) (fallback : value) :
  dict_get (VDict d) k fallback = inr (default fallback (d !! k)).
Proof. unfold dict_get. by destruct (d !! k). Qed.

Section CapacityCalls.

Import Console.

Variable post : LightspeedClient.transport.

(** One turn of the loop. *)
Lemma predict_step (client : LightspeedClient.t) (namespace time : string)
    (remaining : list string) (predictions d : gmap string value) :
  LightspeedClient.query post client
    ("What will resource usage be at " +:+ time +:+ "?")
    (VDict {[ "namespace" := VStr namespace ]})
  = inr (VDict d) ->
  CapacityPlanning.predict post client namespace (time :: remaining) predictions
  = CapacityPlanning.predict post client namespace remaining
      (<[time := CapacityPlanning.prediction_entry d]> predictions).
Proof.
  intros Hd. cbn -[LightspeedClient.query dict_get]. rewrite Hd.
  cbn -[LightspeedClient.query dict_get]. rewrite !dict_get_mapping.
  cbn -[LightspeedClient.query dict_get]. fold CapacityPlanning.predict.
  unfold CapacityPlanning.prediction_entry.
  by destruct (CapacityPlanning.predict _ _ _ _ _) as [out [e | p]].
Qed.

(** The report function is its three stages and [build_report]. *)
Lemma generate_capacity_report_stages (now namespace url : string)
    (current recommendations : value) (p : gmap string value) :
  LightspeedClient.query post (LightspeedClient.init url 30)
    ("What's the current resource usage in " +:+ namespace +:+ "?")
    (VDict {[ "namespace" := VStr namespace ]})
  = inr current ->
  CapacityPlanning.predict post (LightspeedClient.init url 30) namespace
    CapacityPlanning.times ∅
  = ([], inr p) ->
  LightspeedClient.get_recommendations post (LightspeedClient.init url 30)
    "capacity_planning"
    (VDict {[ "namespace" := VStr namespace; "timeframe" := VStr "7 days" ]})
  = inr recommendations ->
  CapacityPlanning.generate_capacity_report post now namespace url
  = (CapacityPlanning.progress namespace,
     CapacityPlanning.build_report now namespace url current p recommendations).
Proof.
  intros Hc Hp Hr. unfold CapacityPlanning.generate_capacity_report.
  cbn -[LightspeedClient.query LightspeedClient.get_recommendations
        CapacityPlanning.predict CapacityPlanning.build_report].
  rewrite Hc, Hp.
  cbn -[LightspeedClient.query LightspeedClient.get_recommendations
        CapacityPlanning.predict CapacityPlanning.build_report].
  by rewrite Hr.
Qed.

(** A report that came back was built by [build_report]. *)
Lemma generate_capacity_report_built (now namespace url : string) (report : value) :
  outcome (CapacityPlanning.generate_capacity_report post now namespace url)
  = inr report ->
  exists (current recommendations : value) (p : gmap string value),
    CapacityPlanning.build_report now namespace url current p recommendations
    = inr report.
Proof.
  unfold CapacityPlanning.generate_capacity_report, outcome.
  cbn -[LightspeedClient.query LightspeedClient.get_recommendations
        CapacityPlanning.predict CapacityPlanning.build_report].
  destruct (LightspeedClient.query _ _ _ _) as [e | current];
    cbn -[LightspeedClient.query LightspeedClient.get_recommendations
          CapacityPlanning.predict CapacityPlanning.build_report];
    [discriminate |].
  destruct (CapacityPlanning.predict _ _ _ _ _) as [out [e | p]];
    cbn -[LightspeedClient.query LightspeedClient.get_recommendations
          CapacityPlanning.predict CapacityPlanning.build_report];
    [discriminate |].
  destruct (LightspeedClient.get_recommendations _ _ _ _) as [e | recommendations];
    cbn -[LightspeedClient.query LightspeedClient.get_recommendations
          CapacityPlanning.predict CapacityPlanning.build_report];
    [discriminate |].
  eauto.
Qed.

(** A failure the client catches, read off the outcome of the request. *)
Lemma query_failure (self : LightspeedClient.t) (question : string) (context : value)
    (msg : string) :
  Wire.failure_message (LightspeedClient.query_outcome post self question context)
  = Some msg ->
  LightspeedClient.query post self question context
  = inr (LightspeedClient.error_response msg).
Proof.
  rewrite query_cases. unfold Wire.failure_message.
  destruct (LightspeedClient.query_outcome post self question context) as [e | r].
  - destruct (is_Exception (exc_type e)); [by intros [= <-] | discriminate].
  - destruct (LightspeedClient.status_code r =? 200); [| by intros [= <-]].
    destruct (LightspeedClient.json r) as [e | v]; [| discriminate].
    destruct (is_Exception (exc_type e)); [by intros [= <-] | discriminate].
Qed.

Lemma get_recommendations_failure (self : LightspeedClient.t) (issue_type : string)
    (context : value) (msg : string) :
  Wire.failure_message (Wire.recommendations_outcome post self issue_type context)
  = Some msg ->
  LightspeedClient.get_recommendations post self issue_type context
  = inr (LightspeedClient.error_response msg).
Proof.
  rewrite get_recommendations_cases. unfold Wire.failure_message.
  destruct (Wire.recommendations_outcome post self issue_type context) as [e | r].
  - destruct (is_Exception (exc_type e)); [by intros [= <-] | discriminate].
  - destruct (LightspeedClient.status_code r =? 200); [| by intros [= <-]].
    destruct (LightspeedClient.json r) as [e | v]; [| discriminate].
    destruct (is_Exception (exc_type e)); [by intros [= <-] | discriminate].
Qed.

End CapacityCalls.

(** The report built from mappings. *)
Lemma build_report_mappings (now namespace url : string)
    (current p recommendations : gmap string value) :
  CapacityPlanning.build_report now namespace url (VDict current) p
    (VDict recommendations)
  = inr (VDict
           {[ "namespace" := VStr namespace;
              "generated_at" := VStr now;
              "current_usage" :=
                VDict {[ "answer" :=
                           default (VStr "No data available") (current !! "answer");
                         "confidence" :=
                           default (VFloat 0) (current !! "confidence") ]};
              "predictions" := VDict p;
              "recommendations" :=
                CapacityPlanning.kept_recommendations recommendations;
              "metadata" :=
                VDict {[ "server" := VStr url;
                         "report_version" := VStr "1.0" ]} ]}).
Proof.
  unfold CapacityPlanning.build_report. rewrite !dict_get_mapping.
  unfold CapacityPlanning.kept_recommendations. simpl.
  by destruct (recommendations !! "error").
Qed.

Section CapacityReport.

Import Console.

Variable post : LightspeedClient.transport.

Hypothesis Hexc : LightspeedClient.raises_exceptions_only post.
Hypothesis Hmap : CapacityPlanning.delivers_mappings post.

(** On such a network both calls of the client return a mapping. *)
Lemma query_returns_mapping (self : LightspeedClient.t) (question : string)
    (context : value) :
  exists d : gmap string value,
    LightspeedClient.query post self question context = inr (VDict d).
Proof.
  rewrite query_cases. unfold LightspeedClient.query_outcome.
  pose proof (Hexc (LightspeedClient.server_url self +:+ "/query")
                (VDict {[ "question" := VStr question;
                          "context" := or_else context (VDict ∅) ]})
                (LightspeedClient.timeout self)) as He.
  pose proof (Hmap (LightspeedClient.server_url self +:+ "/query")
                (VDict {[ "question" := VStr question;
                          "context" := or_else context (VDict ∅) ]})
                (LightspeedClient.timeout self)) as Hm.
  destruct (post _ _ _) as [e | r].
  - rewrite He. unfold LightspeedClient.error_response. eauto.
  - destruct (Z.eqb_spec (LightspeedClient.status_code r) 200) as [Hs | Hs].
    + destruct (LightspeedClient.json r) as [e | [ | | | | | | d]];
        try contradiction; [| eauto].
      rewrite He. unfold LightspeedClient.error_response. eauto.
    + unfold LightspeedClient.error_response. eauto.
Qed.

Lemma get_recommendations_returns_mapping (self : LightspeedClient.t)
    (issue_type : string) (context : value) :
  exists d : gmap string value,
    LightspeedClient.get_recommendations post self issue_type context
    = inr (VDict d).
Proof.
  rewrite get_recommendations_cases. unfold Wire.recommendations_outcome.
  pose proof (Hexc (LightspeedClient.server_url self +:+ "/recommendations")
                (VDict {[ "issue_type" := VStr issue_type; "context" := context ]})
                (LightspeedClient.timeout self)) as He.
  pose proof (Hmap (LightspeedClient.server_url self +:+ "/recommendations")
                (VDict {[ "issue_type" := VStr issue_type; "context" := context ]})
                (LightspeedClient.timeout self)) as Hm.
  destruct (post _ _ _) as [e | r].
  - rewrite He. unfold LightspeedClient.error_response. eauto.
  - destruct (Z.eqb_spec (LightspeedClient.status_code r) 200) as [Hs | Hs].
    + destruct (LightspeedClient.json r) as [e | [ | | | | | | d]];
        try contradiction; [| eauto].
      rewrite He. unfold LightspeedClient.error_response. eauto.
    + unfold LightspeedClient.error_response. eauto.
Qed.

(** The loop fills one entry per time, from the query of that time, and
    touches no other key; it prints nothing. *)
Lemma predict_entries (client : LightspeedClient.t) (namespace : string)
    (remaining : list string) (predictions : gmap string value) :
  exists p : gmap string value,
    CapacityPlanning.predict post client namespace remaining predictions
    = ([], inr p)
    /\ (forall time : string,
          time ∈ remaining ->
          exists d : gmap string value,
            LightspeedClient.query post client
              ("What will resource usage be at " +:+ time +:+ "?")
              (VDict {[ "namespace" := VStr namespace ]})
            = inr (VDict d)
            /\ p !! time = Some (CapacityPlanning.prediction_entry d))
    /\ (forall key : string, key ∉ remaining -> p !! key = predictions !! key).
Proof.
  revert predictions.
  induction remaining as [| time remaining IH]; intros predictions.
  - exists predictions. split; [reflexivity |]. split; [| done].
    intros time Hin. by apply elem_of_nil in Hin.
  - destruct (query_returns_mapping client
                ("What will resource usage be at " +:+ time +:+ "?")
                (VDict {[ "namespace" := VStr namespace ]})) as [d Hd].
    destruct (IH (<[time := CapacityPlanning.prediction_entry d]> predictions))
      as (p & Hp & Hin & Hout).
    exists p. split; [| split].
    + by rewrite (predict_step post client namespace time remaining predictions d Hd).
    + intros t Ht. destruct (decide (t ∈ remaining)) as [Hr | Hr].
      * by apply Hin.
      * apply elem_of_cons in Ht as [-> | Ht]; [| done].
        exists d. split; [exact Hd |]. rewrite (Hout _ Hr).
        apply lookup_insert_eq.
    + intros key Hk. apply not_elem_of_cons in Hk as [Hne Hk].
      rewrite (Hout _ Hk). by rewrite lookup_insert_ne.
Qed.

End CapacityReport.

(** X16.  On a network whose failures are [Exception]s and whose JSON
    bodies are objects, a report is always generated, and the four
    progress lines are printed.  Its current usage is the answer and the
    confidence of the first query, or ["No data available"] and 0.0; its
    predictions have one entry for each of the four times, from the query
    of that time, or ["No prediction available"] and 0.0, and no other
    entry; its recommendations are what [get_recommendations] returned,
    cut down to the error when there is one; its metadata name the server
    URL as it was given. *)
Theorem capacity_report_generated
    (post : LightspeedClient.transport) (now namespace url : string) :
  LightspeedClient.raises_exceptions_only post ->
  CapacityPlanning.delivers_mappings post ->
  exists current recommendations p : gmap string value,
    LightspeedClient.query post (LightspeedClient.init url 30)
      ("What's the current resource usage in " +:+ namespace +:+ "?")
      (VDict {[ "namespace" := VStr namespace ]})
    = inr (VDict current)
    /\ LightspeedClient.get_recommendations post (LightspeedClient.init url 30)
         "capacity_planning"
         (VDict {[ "namespace" := VStr namespace; "timeframe" := VStr "7 days" ]})
       = inr (VDict recommendations)
    /\ (forall time : string,
          time ∈ CapacityPlanning.times ->
          exists d : gmap string value,
            LightspeedClient.query post (LightspeedClient.init url 30)
              ("What will resource usage be at " +:+ time +:+ "?")
              (VDict {[ "namespace" := VStr namespace ]})
            = inr (VDict d)
            /\ p !! time = Some (CapacityPlanning.prediction_entry d))
    /\ (forall key : string, key ∉ CapacityPlanning.times -> p !! key = None)
    /\ CapacityPlanning.generate_capacity_report post now namespace url
       = (CapacityPlanning.progress namespace,
          inr (VDict
                 {[ "namespace" := VStr namespace;
                    "generated_at" := VStr now;
                    "current_usage" :=
                      VDict {[ "answer" :=
                                 default (VStr "No data available")
                                   (current !! "answer");
                               "confidence" :=
                                 default (VFloat 0) (current !! "confidence") ]};
                    "predictions" := VDict p;
                    "recommendations" :=
                      CapacityPlanning.kept_recommendations recommendations;
                    "metadata" :=
                      VDict {[ "server" := VStr url;
                               "report_version" := VStr "1.0" ]} ]})).
Proof.
  intros Hexc Hmap.
  destruct (query_returns_mapping post Hexc Hmap (LightspeedClient.init url 30)
              ("What's the current resource usage in " +:+ namespace +:+ "?")
              (VDict {[ "namespace" := VStr namespace ]})) as [current Hc].
  destruct (get_recommendations_returns_mapping post Hexc Hmap
              (LightspeedClient.init url 30) "capacity_planning"
              (VDict {[ "namespace" := VStr namespace;
                        "timeframe" := VStr "7 days" ]})) as [recs Hr].
  destruct (predict_entries post Hexc Hmap (LightspeedClient.init url 30) namespace
              CapacityPlanning.times ∅) as (p & Hp & Hin & Hout).
  exists current, recs, p.
  split; [exact Hc |]. split; [exact Hr |]. split; [exact Hin |].
  split; [intros key Hk; by rewrite (Hout key Hk) |].
  rewrite (generate_capacity_report_stages post now namespace url _ _ p Hc Hp Hr).
  by rewrite build_report_mappings.
Qed.

Lemma capacity_report_generated_witness :
  LightspeedClient.raises_exceptions_only
    (LightspeedClient.replies (Scenario.ok (VDict (Scenario.body (VFloat 0.92)))))
  /\ CapacityPlanning.delivers_mappings
       (LightspeedClient.replies (Scenario.ok (VDict (Scenario.body (VFloat 0.92)))))
  /\ exists report : value,
       CapacityPlanning.generate_capacity_report
         (LightspeedClient.replies (Scenario.ok (VDict (Scenario.body (VFloat 0.92)))))
         "2026-01-01T09:00:00" "self-healing-platform" "http://ols-server:8000/"
       = (CapacityPlanning.progress "self-healing-platform", inr report).
Proof.
  assert (He : LightspeedClient.raises_exceptions_only
                 (LightspeedClient.replies
                    (Scenario.ok (VDict (Scenario.body (VFloat 0.92))))))
    by (intros u p s; exact I).
  assert (Hm : CapacityPlanning.delivers_mappings
                 (LightspeedClient.replies
                    (Scenario.ok (VDict (Scenario.body (VFloat 0.92))))))
    by (intros u p s; exact I).
  split; [exact He |]. split; [exact Hm |].
  destruct (capacity_report_generated
              (LightspeedClient.replies
                 (Scenario.ok (VDict (Scenario.body (VFloat 0.92)))))
              "2026-01-01T09:00:00" "self-healing-platform" "http://ols-server:8000/"
              He Hm) as (current & recs & p & _ & _ & _ & _ & H).
  eexists. exact H.
Defined.

(** X17.  When every request fails, the report is generated all the
    same, out of placeholders, and says so only in its recommendations:
    the current usage and the four predictions read as missing data with
    confidence 0.0, and the recommendations are the error of the client. *)
Theorem capacity_report_when_unreachable
    (outcome : result LightspeedClient.http_response) (msg : string)
    (now namespace url : string) :
  Wire.failure_message outcome = Some msg ->
  CapacityPlanning.generate_capacity_report (LightspeedClient.replies outcome)
    now namespace url
  = (CapacityPlanning.progress namespace,
     inr (VDict
            {[ "namespace" := VStr namespace;
               "generated_at" := VStr now;
               "current_usage" :=
                 VDict {[ "answer" := VStr "No data available";
                          "confidence" := VFloat 0 ]};
               "predictions" :=
                 VDict
                   {[ "9 AM" :=
                        VDict {[ "answer" := VStr "No prediction available";
                                 "confidence" := VFloat 0 ]};
                      "12 PM" :=
                        VDict {[ "answer" := VStr "No prediction available";
                                 "confidence" := VFloat 0 ]};
                      "3 PM" :=
                        VDict {[ "answer" := VStr "No prediction available";
                                 "confidence" := VFloat 0 ]};
                      "6 PM" :=
                        VDict {[ "answer" := VStr "No prediction available";
                                 "confidence" := VFloat 0 ]} ]};
               "recommendations" := VDict {[ "error" := VStr msg ]};
               "metadata" :=
                 VDict {[ "server" := VStr url;
                          "report_version" := VStr "1.0" ]} ]})).
Proof.
  intros Hm.
  assert (Hq : forall question context,
             LightspeedClient.query (LightspeedClient.replies outcome)
               (LightspeedClient.init url 30) question context
             = inr (LightspeedClient.error_response msg))
    by (intros question context; by apply query_failure).
  rewrite (generate_capacity_report_stages (LightspeedClient.replies outcome)
             now namespace url
             (LightspeedClient.error_response msg)
             (LightspeedClient.error_response msg)
             {[ "9 AM" := CapacityPlanning.prediction_entry {[ "error" := VStr msg ]};
                "12 PM" := CapacityPlanning.prediction_entry {[ "error" := VStr msg ]};
                "3 PM" := CapacityPlanning.prediction_entry {[ "error" := VStr msg ]};
                "6 PM" := CapacityPlanning.prediction_entry {[ "error" := VStr msg ]} ]}).
  - unfold LightspeedClient.error_response. by rewrite build_report_mappings.
  - apply Hq.
  - unfold CapacityPlanning.times.
    rewrite !(predict_step _ _ _ _ _ _ {[ "error" := VStr msg ]}) by apply Hq.
    reflexivity.
  - by apply get_recommendations_failure.
Qed.

Lemma capacity_report_when_unreachable_witness :
  Console.outcome
    (CapacityPlanning.generate_capacity_report
       (LightspeedClient.replies Scenario.timed_out)
       "2026-01-01T09:00:00" "self-healing-platform" "http://ols-server:8000")
  = inr (VDict
           {[ "namespace" := VStr "self-healing-platform";
              "generated_at" := VStr "2026-01-01T09:00:00";
              "current_usage" :=
                VDict {[ "answer" := VStr "No data available";
                         "confidence" := VFloat 0 ]};
              "predictions" :=
                VDict
                  {[ "9 AM" :=
                       VDict {[ "answer" := VStr "No prediction available";
                                "confidence" := VFloat 0 ]};
                     "12 PM" :=
                       VDict {[ "answer" := VStr "No prediction available";
                                "confidence" := VFloat 0 ]};
                     "3 PM" :=
                       VDict {[ "answer" := VStr "No prediction available";
                                "confidence" := VFloat 0 ]};
                     "6 PM" :=
                       VDict {[ "answer" := VStr "No prediction available";
                                "confidence" := VFloat 0 ]} ]};
              "recommendations" :=
                VDict {[ "error" :=
                           VStr "Request failed: Read timed out. (read timeout=30)" ]};
              "metadata" :=
                VDict {[ "server" := VStr "http://ols-server:8000";
                         "report_version" := VStr "1.0" ]} ]}).
Proof.
  exact (f_equal snd
           (capacity_report_when_unreachable Scenario.timed_out
              "Request failed: Read timed out. (read timeout=30)"
              "2026-01-01T09:00:00" "self-healing-platform" "http://ols-server:8000"
              eq_refl)).
Defined.

(** X18.  In every report that comes back, recommendations that report an
    error hold the error and nothing else: whatever came with it is
    dropped. *)
Theorem capacity_report_keeps_only_the_error
    (post : LightspeedClient.transport) (now namespace url : string)
    (report kept : gmap string value) :
  Console.outcome (CapacityPlanning.generate_capacity_report post now namespace url)
  = inr (VDict report) ->
  report !! "recommendations" = Some (VDict kept) ->
  is_Some (kept !! "error") ->
  forall key : string, key <> "error" -> kept !! key = None.
Proof.
  intros (current & recs & p & Hb)%generate_capacity_report_built Hk [e He] key Hne.
  revert Hb. unfold CapacityPlanning.build_report.
  destruct (dict_get current "answer" _) as [x | answer]; simpl; [discriminate |].
  destruct (dict_get current "confidence" _) as [x | confidence]; simpl;
    [discriminate |].
  destruct (contains "error" recs) as [x | [|]] eqn:Hc; simpl; [discriminate | |].
  - destruct (getitem recs "error") as [x | e']; simpl; [discriminate |].
    intros [= <-]. revert Hk.
    change (Some (VDict {[ "error" := e' ]}) = Some (VDict kept) -> kept !! key = None).
    intros [= <-]. by apply lookup_singleton_ne.
  - intros [= <-]. revert Hk.
    change (Some recs = Some (VDict kept) -> kept !! key = None).
    intros [= ->]. simpl in Hc. rewrite He in Hc. discriminate Hc.
Qed.

Lemma capacity_report_keeps_only_the_error_witness :
  exists report kept : gmap string value,
    Console.outcome
      (CapacityPlanning.generate_capacity_report
         (LightspeedClient.replies (Scenario.ok (VDict Scenario.mixed_body)))
         "2026-01-01T09:00:00" "self-healing-platform" "http://ols-server:8000")
    = inr (VDict report)
    /\ report !! "recommendations" = Some (VDict kept)
    /\ is_Some (kept !! "error")
    /\ is_Some (Scenario.mixed_body !! "recommendations")
    /\ forall key : string, key <> "error" -> kept !! key = None.
Proof.
  eexists. eexists.
  split; [reflexivity |]. split; [reflexivity |].
  split; [eexists; reflexivity |]. split; [eexists; reflexivity |].
  eapply (capacity_report_keeps_only_the_error
            (LightspeedClient.replies (Scenario.ok (VDict Scenario.mixed_body)))
            "2026-01-01T09:00:00" "self-healing-platform" "http://ols-server:8000");
    [reflexivity | reflexivity | eexists; reflexivity].
Defined.

(** ** The fleet analysis *)

Section FleetSteps.

Import Console.

Variable hashable_slices : bool.
Variable repr : value -> string.
Variable post : LightspeedClient.transport.

(** One turn of the loop on a running pod. *)
Lemma analyze_running (client : LightspeedClient.t) (namespace : string)
    (p : BatchAnalysis.pod) (pods : list BatchAnalysis.pod) (results : list value) :
  BatchAnalysis.status p = "Running" ->
  BatchAnalysis.analyze hashable_slices post client namespace (p :: pods) results
  = BatchAnalysis.analyze hashable_slices post client namespace pods
      (results ++ [BatchAnalysis.row p (VStr "Pod is healthy") (VFloat 1)]).
Proof.
  intros Hs. cbn -[LightspeedClient.query]. by rewrite Hs.
Qed.

(** One turn on a pod that is not running, whose query returned a mapping
    with a text answer or none. *)
Lemma analyze_problem (client : LightspeedClient.t) (namespace : string)
    (p : BatchAnalysis.pod) (pods : list BatchAnalysis.pod) (results : list value)
    (d : gmap string value) (s : string) :
  BatchAnalysis.status p <> "Running" ->
  LightspeedClient.query post client (BatchAnalysis.why_question p)
    (BatchAnalysis.why_context namespace p)
  = inr (VDict d) ->
  BatchAnalysis.answer_text d = Some s ->
  BatchAnalysis.analyze hashable_slices post client namespace (p :: pods) results
  = (BatchAnalysis.analyzing_line p
     :: printed (BatchAnalysis.analyze hashable_slices post client namespace pods
                   (results ++ [BatchAnalysis.row p (VStr (BatchAnalysis.clipped s))
                                  (default (VFloat 0) (d !! "confidence"))])),
     outcome (BatchAnalysis.analyze hashable_slices post client namespace pods
                (results ++ [BatchAnalysis.row p (VStr (BatchAnalysis.clipped s))
                               (default (VFloat 0) (d !! "confidence"))]))).
Proof.
  intros Hs Hq Ha. cbn -[LightspeedClient.query dict_get slice_to add_str].
  destruct (String.eqb_spec (BatchAnalysis.status p) "Running") as [| _]; [done |].
  cbn -[LightspeedClient.query dict_get slice_to add_str].
  unfold BatchAnalysis.why_question, BatchAnalysis.why_context in Hq. rewrite Hq.
  cbn -[LightspeedClient.query dict_get slice_to add_str].
  rewrite !dict_get_mapping.
  unfold BatchAnalysis.answer_text in Ha.
  destruct (d !! "answer") as [[ | | | | a | | ] |]; try discriminate Ha;
    injection Ha as <-;
    cbn -[LightspeedClient.query]; fold BatchAnalysis.analyze;
    by destruct (BatchAnalysis.analyze _ _ _ _ _ _) as [out [e | rows]].
Qed.


(** The function is its first query and, when that reports no error, the
    loop over the sample pods. *)
Lemma analyze_pod_fleet_listed (namespace url : string) (d : gmap string value) :
  LightspeedClient.query post (LightspeedClient.init url 30)
    (BatchAnalysis.list_question namespace) (VDict {[ "namespace" := VStr namespace ]})
  = inr (VDict d) ->
  BatchAnalysis.analyze_pod_fleet hashable_slices repr post namespace url
  = match d !! "error" with
    | Some e =>
        ([ "Querying Lightspeed for pods in " +:+ namespace +:+ "...";
           "Error getting pod list: " +:+ format repr e ], inr [])
    | None =>
        (("Querying Lightspeed for pods in " +:+ namespace +:+ "...")
         :: printed (BatchAnalysis.analyze hashable_slices post (LightspeedClient.init url 30)
                       namespace BatchAnalysis.sample_pods []),
         outcome (BatchAnalysis.analyze hashable_slices post (LightspeedClient.init url 30)
                    namespace BatchAnalysis.sample_pods []))
    end.
Proof.
  intros Hq. unfold BatchAnalysis.analyze_pod_fleet.
  cbn -[LightspeedClient.query BatchAnalysis.analyze].
  unfold BatchAnalysis.list_question in Hq. rewrite Hq.
  cbn -[LightspeedClient.query BatchAnalysis.analyze].
  destruct (d !! "error") as [e |]; cbn -[LightspeedClient.query BatchAnalysis.analyze];
    [reflexivity |].
  by destruct (BatchAnalysis.analyze _ _ _ _ _ _) as [out [e | rows]].
Qed.

End FleetSteps.

(** The text of the analysis column, counted in characters. *)
Lemma chars_take_chars (n : nat) (s : string) :
  Console.chars (Console.take_chars n s) = Nat.min n (Console.chars s).
Proof.
  revert n. induction s as [| a s IH]; intros n; simpl.
  - by destruct n.
  - destruct (Console.is_continuation a) eqn:Ha; simpl.
    + by rewrite Ha, IH.
    + destruct n as [| n]; simpl; [reflexivity |]. by rewrite Ha, IH.
Qed.

Lemma chars_append (a b : string) :
  Console.chars (a +:+ b) = (Console.chars a + Console.chars b)%nat.
Proof.
  induction a as [| c a IH]; simpl; [reflexivity |].
  rewrite IH. by destruct (Console.is_continuation c).
Qed.

(** A text of at most [n] characters is taken whole. *)
Lemma take_chars_all (n : nat) (s : string) :
  (Console.chars s <= n)%nat -> Console.take_chars n s = s.
Proof.
  revert n. induction s as [| a s IH]; intros n; simpl; [reflexivity |].
  destruct (Console.is_continuation a).
  - intros H. by rewrite IH.
  - destruct n as [| n]; [lia |]. intros H. rewrite IH; [reflexivity | lia].
Qed.

Lemma clipped_chars (s : string) :
  Console.chars (BatchAnalysis.clipped s) = (Nat.min 100 (Console.chars s) + 3)%nat.
Proof.
  unfold BatchAnalysis.clipped. by rewrite chars_append, chars_take_chars.
Qed.

Lemma ends_with_append (a suffix : string) :
  BatchAnalysis.ends_with suffix (a +:+ suffix) = true.
Proof.
  induction a as [| c a IH].
  - change (EmptyString +:+ suffix) with suffix.
    destruct suffix; cbn -[String.eqb]; rewrite ?String.eqb_refl; reflexivity.
  - change (String c a +:+ suffix) with (String c (a +:+ suffix)).
    cbn -[String.eqb]. rewrite IH. apply orb_true_r.
Qed.



(** The loop over the sample pods, given what the two queries returned. *)
Lemma analyze_sample_pods
    (hashable_slices : bool)
    (post : LightspeedClient.transport) (client : LightspeedClient.t)
    (namespace : string) (d1 d2 : gmap string value) (s1 s2 : string) :
  LightspeedClient.query post client
    (BatchAnalysis.why_question BatchAnalysis.crashing_pod)
    (BatchAnalysis.why_context namespace BatchAnalysis.crashing_pod)
  = inr (VDict d1) ->
  BatchAnalysis.answer_text d1 = Some s1 ->
  LightspeedClient.query post client
    (BatchAnalysis.why_question BatchAnalysis.failed_pod)
    (BatchAnalysis.why_context namespace BatchAnalysis.failed_pod)
  = inr (VDict d2) ->
  BatchAnalysis.answer_text d2 = Some s2 ->
  BatchAnalysis.analyze hashable_slices post client namespace BatchAnalysis.sample_pods []
  = ([ BatchAnalysis.analyzing_line BatchAnalysis.crashing_pod;
       BatchAnalysis.analyzing_line BatchAnalysis.failed_pod ],
     inr (BatchAnalysis.healthy_rows
          ++ [ BatchAnalysis.row BatchAnalysis.crashing_pod
                 (VStr (BatchAnalysis.clipped s1))
                 (default (VFloat 0) (d1 !! "confidence"));
               BatchAnalysis.row BatchAnalysis.failed_pod
                 (VStr (BatchAnalysis.clipped s2))
                 (default (VFloat 0) (d2 !! "confidence")) ])).
Proof.
  intros Hq1 Ha1 Hq2 Ha2. unfold BatchAnalysis.sample_pods.
  rewrite !analyze_running by reflexivity.
  fold BatchAnalysis.crashing_pod BatchAnalysis.failed_pod.
  rewrite (analyze_problem hashable_slices post client namespace BatchAnalysis.crashing_pod _ _ d1 s1)
    by (done || discriminate).
  rewrite (analyze_problem hashable_slices post client namespace BatchAnalysis.failed_pod _ _ d2 s2)
    by (done || discriminate).
  reflexivity.
Qed.

(** X20.  When the list of pods comes back without an error, the frame
    has the four sample pods in order: the two running ones as healthy
    with confidence 1.0, without a query, and the other two with what the
    query about each returned, its confidence (0.0 when absent) and the
    first 100 characters of its answer (characters, not bytes) followed
    by three dots, which are added whether or not anything was cut: an
    answer of at most 100 characters comes back whole with the dots. *)
Theorem fleet_rows
    (hashable_slices : bool)
    (repr : value -> string) (post : LightspeedClient.transport)
    (namespace url : string) (d0 d1 d2 : gmap string value) (s1 s2 : string) :
  LightspeedClient.query post (LightspeedClient.init url 30)
    (BatchAnalysis.list_question namespace) (VDict {[ "namespace" := VStr namespace ]})
  = inr (VDict d0) ->
  d0 !! "error" = None ->
  LightspeedClient.query post (LightspeedClient.init url 30)
    (BatchAnalysis.why_question BatchAnalysis.crashing_pod)
    (BatchAnalysis.why_context namespace BatchAnalysis.crashing_pod)
  = inr (VDict d1) ->
  BatchAnalysis.answer_text d1 = Some s1 ->
  LightspeedClient.query post (LightspeedClient.init url 30)
    (BatchAnalysis.why_question BatchAnalysis.failed_pod)
    (BatchAnalysis.why_context namespace BatchAnalysis.failed_pod)
  = inr (VDict d2) ->
  BatchAnalysis.answer_text d2 = Some s2 ->
  BatchAnalysis.analyze_pod_fleet hashable_slices repr post namespace url
  = ([ "Querying Lightspeed for pods in " +:+ namespace +:+ "...";
       BatchAnalysis.analyzing_line BatchAnalysis.crashing_pod;
       BatchAnalysis.analyzing_line BatchAnalysis.failed_pod ],
     inr (BatchAnalysis.healthy_rows
          ++ [ BatchAnalysis.row BatchAnalysis.crashing_pod
                 (VStr (BatchAnalysis.clipped s1))
                 (default (VFloat 0) (d1 !! "confidence"));
               BatchAnalysis.row BatchAnalysis.failed_pod
                 (VStr (BatchAnalysis.clipped s2))
                 (default (VFloat 0) (d2 !! "confidence")) ]))
  /\ (forall s : string,
        Console.chars (BatchAnalysis.clipped s)
        = (Nat.min 100 (Console.chars s) + 3)%nat
        /\ (Console.chars (BatchAnalysis.clipped s) <= 103)%nat
        /\ BatchAnalysis.ends_with "..." (BatchAnalysis.clipped s) = true
        /\ ((Console.chars s <= 100)%nat -> BatchAnalysis.clipped s = s +:+ "...")).
Proof.
  intros Hq0 He Hq1 Ha1 Hq2 Ha2. split.
  - rewrite (analyze_pod_fleet_listed hashable_slices repr post namespace url d0 Hq0), He.
    by rewrite (analyze_sample_pods hashable_slices post _ namespace d1 d2 s1 s2 Hq1 Ha1 Hq2 Ha2).
  - intros s. rewrite clipped_chars. split; [reflexivity |]. split; [lia |].
    split; [apply ends_with_append |].
    intros Hs. unfold BatchAnalysis.clipped. by rewrite take_chars_all.
Qed.

Lemma fleet_rows_witness :
  BatchAnalysis.analyze_pod_fleet true Scenario.no_repr
    (LightspeedClient.replies (Scenario.ok (VDict (Scenario.body (VFloat 0.92)))))
    "self-healing-platform" "http://ols-server:8000"
  = ([ "Querying Lightspeed for pods in self-healing-platform...";
       "  Analyzing problematic pod: predictive-analytics-predictor-xyz (status: CrashLoopBackOff)";
       "  Analyzing problematic pod: anomaly-detector-predictor-abc (status: Error)" ],
     inr (BatchAnalysis.healthy_rows
          ++ [ BatchAnalysis.row BatchAnalysis.crashing_pod (VStr "Restart pod...")
                 (VFloat 0.92);
               BatchAnalysis.row BatchAnalysis.failed_pod (VStr "Restart pod...")
                 (VFloat 0.92) ])).
Proof.
  exact (proj1 (fleet_rows true Scenario.no_repr
                  (LightspeedClient.replies
                     (Scenario.ok (VDict (Scenario.body (VFloat 0.92)))))
                  "self-healing-platform" "http://ols-server:8000"
                  (Scenario.body (VFloat 0.92)) (Scenario.body (VFloat 0.92))
                  (Scenario.body (VFloat 0.92)) "Restart pod" "Restart pod"
                  eq_refl eq_refl eq_refl eq_refl eq_refl eq_refl)).
Defined.

(** X21.  A query about a pod that fails does not fail the analysis: the
    pod gets a row that reads ["No analysis available..."] with
    confidence 0.0, and the error is not kept. *)
Theorem fleet_absorbs_failures
    (hashable_slices : bool)
    (repr : value -> string) (post : LightspeedClient.transport)
    (namespace url : string) (d0 : gmap string value) (msg1 msg2 : string) :
  LightspeedClient.query post (LightspeedClient.init url 30)
    (BatchAnalysis.list_question namespace) (VDict {[ "namespace" := VStr namespace ]})
  = inr (VDict d0) ->
  d0 !! "error" = None ->
  Wire.failure_message
    (LightspeedClient.query_outcome post (LightspeedClient.init url 30)
       (BatchAnalysis.why_question BatchAnalysis.crashing_pod)
       (BatchAnalysis.why_context namespace BatchAnalysis.crashing_pod))
  = Some msg1 ->
  Wire.failure_message
    (LightspeedClient.query_outcome post (LightspeedClient.init url 30)
       (BatchAnalysis.why_question BatchAnalysis.failed_pod)
       (BatchAnalysis.why_context namespace BatchAnalysis.failed_pod))
  = Some msg2 ->
  Console.outcome (BatchAnalysis.analyze_pod_fleet hashable_slices repr post namespace url)
  = inr (BatchAnalysis.healthy_rows
         ++ [ BatchAnalysis.row BatchAnalysis.crashing_pod
                (VStr "No analysis available...") (VFloat 0);
              BatchAnalysis.row BatchAnalysis.failed_pod
                (VStr "No analysis available...") (VFloat 0) ]).
Proof.
  intros Hq0 He Hf1 Hf2.
  rewrite (analyze_pod_fleet_listed hashable_slices repr post namespace url d0 Hq0), He.
  rewrite (analyze_sample_pods hashable_slices post _ namespace
             {[ "error" := VStr msg1 ]} {[ "error" := VStr msg2 ]}
             "No analysis available" "No analysis available").
  - reflexivity.
  - by apply query_failure.
  - reflexivity.
  - by apply query_failure.
  - reflexivity.
Qed.

Lemma fleet_absorbs_failures_witness :
  Console.outcome
    (BatchAnalysis.analyze_pod_fleet true Scenario.no_repr BatchAnalysis.lists_only
       "self-healing-platform" "http://ols-server:8000")
  = inr (BatchAnalysis.healthy_rows
         ++ [ BatchAnalysis.row BatchAnalysis.crashing_pod
                (VStr "No analysis available...") (VFloat 0);
              BatchAnalysis.row BatchAnalysis.failed_pod
                (VStr "No analysis available...") (VFloat 0) ]).
Proof.
  exact (fleet_absorbs_failures true Scenario.no_repr BatchAnalysis.lists_only
           "self-healing-platform" "http://ols-server:8000"
           {[ "answer" := VStr "4 pods" ]}
           "Request failed: Read timed out. (read timeout=30)"
           "Request failed: Read timed out. (read timeout=30)"
           eq_refl eq_refl eq_refl eq_refl).
Defined.



(** X23.  [extract_insights] returns exactly on the responses that are
    mappings.  On a JSON list, string, number, boolean or [null] it raises
    [TypeError] or [AttributeError], at whatever time it is called. *)
Theorem extract_insights_needs_mapping (now : string) (response : value) :
  Wire.is_returned (extract_insights now response) = Wire.is_mapping response
  /\ (Wire.is_mapping response = false ->
      exists e : exc,
        (exc_type e = TypeError \/ exc_type e = AttributeError)
        /\ forall time : string, extract_insights time response = inl e).
Proof.
  destruct response as [ | b | z | f | s | l | d]; simpl.
  1-4: split; [reflexivity |]; intros _; eexists; split; [| reflexivity];
    simpl; tauto.
  - unfold extract_insights. simpl.
    destruct (is_substring "error" s); simpl;
      (split; [reflexivity |]); intros _; eexists; (split; [| reflexivity]);
      simpl; tauto.
  - unfold extract_insights. simpl.
    destruct (existsb (fun v : value => eq_str v "error") l); simpl;
      (split; [reflexivity |]); intros _; eexists; (split; [| reflexivity]);
      simpl; tauto.
  - split; [| discriminate].
    destruct (d !! "error") as [m |] eqn:He.
    + by rewrite (extract_insights_error now d m He).
    + by rewrite (extract_insights_success now d He).
Qed.

(** Sixty times the two-byte character U+00E9: 120 bytes, 60 characters,
    so nothing is cut; and 150 times, of which 100 characters are kept. *)
Example clipped_counts_characters :
  let e_acute := String (Ascii.ascii_of_nat 195) (String (Ascii.ascii_of_nat 169) EmptyString) in
  let text := String.concat EmptyString (replicate 60 e_acute) in
  let long := String.concat EmptyString (replicate 150 e_acute) in
  String.length text = 120%nat
  /\ Console.chars text = 60%nat
  /\ BatchAnalysis.clipped text = text +:+ "..."
  /\ Console.chars (BatchAnalysis.clipped long) = 103%nat
  /\ String.length (BatchAnalysis.clipped long) = 203%nat.
Proof. vm_compute. repeat split. Qed.

(** A mapping for an answer, on the two kinds of interpreter. *)
Example slice_of_mapping :
  Console.slice_to true 100 (VDict ∅) = raise KeyError "slice(None, 100, None)"
  /\ Console.slice_to false 100 (VDict ∅) = raise TypeError "unhashable type: 'slice'".
Proof. split; reflexivity. Qed.
